(** * mssql-mcp-server: the read-only query executor and the schema discovery

    A shallow embedding of [QueryExecutor] (database/queryExecutor.ts) and
    [SchemaDiscovery] (database/schema.ts), and the properties their
    specification states.

    Strings.  A JavaScript string is a sequence of UTF-16 code units.  The
    model uses [string], whose characters are the code units 0..255 (the
    Latin-1 block); on this range the library functions used by the code
    ([trim], [toLowerCase], [includes], [startsWith], the regular
    expressions) are modelled exactly.

    Effects.  Every [await request.query(text)] is a round-trip to the
    server.  The server is a parameter of the model; the issued texts, the
    session switches and the readings of [Date.now()] are threaded through
    an explicit state.  Diagnostics written with [console.error] and
    [console.warn] are not part of the model. *)

From Stdlib Require Import Bool List Arith ZArith Lia.
From Stdlib Require Import Ascii String.
From Stdlib Require Import Numbers.DecimalString.
Import ListNotations.

Local Open Scope string_scope.
Local Open Scope bool_scope.

(** ** JavaScript strings *)

Module Js.

(** Code unit of a character. *)
Definition code (c : ascii) : nat := nat_of_ascii c.

(** [WhiteSpace] and [LineTerminator] of ECMAScript below 256: TAB, LF, VT,
    FF, CR, SP and NBSP.  This is the set removed by [trim] and matched by
    [\s]. *)
Definition isWhiteSpace (c : ascii) : bool :=
  let n := code c in
  (((9 <=? n) && (n <=? 13)) || (n =? 32) || (n =? 160))%nat.

(** [LineTerminator] below 256: LF and CR.  [.] does not match them and,
    under the [m] flag, [$] matches before them. *)
Definition isLineTerminator (c : ascii) : bool :=
  let n := code c in ((n =? 10) || (n =? 13))%nat.

(** [toLowerCase] on one code unit: A..Z and the Latin-1 capitals
    (0xC0..0xDE without the multiplication sign 0xD7) move up by 32. *)
Definition toLowerChar (c : ascii) : ascii :=
  let n := code c in
  if (((65 <=? n) && (n <=? 90))
      || ((192 <=? n) && (n <=? 222) && negb (n =? 215)))%nat
  then ascii_of_nat (n + 32) else c.

(** [Canonicalize] of a case-insensitive regular expression without the [u]
    flag, as far as a pattern of ASCII letters can observe it: a..z go to
    A..Z; a code unit from 128 on never canonicalizes to an ASCII one. *)
Definition canonicalize (c : ascii) : ascii :=
  let n := code c in
  if ((97 <=? n) && (n <=? 122))%nat then ascii_of_nat (n - 32) else c.

Fixpoint map (f : ascii -> ascii) (s : string) : string :=
  match s with
  | EmptyString => EmptyString
  | String c t => String (f c) (map f t)
  end.

Definition toLowerCase (s : string) : string := map toLowerChar s.

Fixpoint forallb (p : ascii -> bool) (s : string) : bool :=
  match s with
  | EmptyString => true
  | String c t => p c && forallb p t
  end.

Fixpoint takeWhile (p : ascii -> bool) (s : string) : string :=
  match s with
  | EmptyString => EmptyString
  | String c t => if p c then String c (takeWhile p t) else EmptyString
  end.

Fixpoint dropWhile (p : ascii -> bool) (s : string) : string :=
  match s with
  | EmptyString => EmptyString
  | String c t => if p c then dropWhile p t else s
  end.

Definition trimStart (s : string) : string := dropWhile isWhiteSpace s.

Fixpoint trimEnd (s : string) : string :=
  match s with
  | EmptyString => EmptyString
  | String c t =>
      let t' := trimEnd t in
      if isWhiteSpace c && (t' =? "") then EmptyString else String c t'
  end.

Definition trim (s : string) : string := trimEnd (trimStart s).

(** [s.startsWith(p)] *)
Definition startsWith (s p : string) : bool := prefix p s.

(** [s.includes(sub)] *)
Fixpoint includes (s sub : string) : bool :=
  if startsWith s sub then true
  else match s with
       | EmptyString => false
       | String _ t => includes t sub
       end.

Fixpoint take (n : nat) (s : string) : string :=
  match n, s with
  | S k, String c t => String c (take k t)
  | _, _ => EmptyString
  end.

Fixpoint drop (n : nat) (s : string) : string :=
  match n, s with
  | S k, String _ t => drop k t
  | _, _ => s
  end.

(** [s.replace(/--.*$/gm, '')]: from the leftmost [--] the greedy [.*] eats
    every code unit that is not a line terminator, where [$] then holds; the
    search goes on behind the match.  [inside] tells whether the scan is
    within such a match. *)
Fixpoint stripLineComments (inside : bool) (s : string) : string :=
  match s with
  | EmptyString => EmptyString
  | String c t =>
      if inside then
        if isLineTerminator c then String c (stripLineComments false t)
        else stripLineComments true t
      else if startsWith s "--" then stripLineComments true t
      else String c (stripLineComments false t)
  end.

(** [s.replace(/\/\*[\s\S]*?\*\//g, '')]: a [/*] opens a match when a [*/]
    follows it (the lazy body stops at the first one); without a closing
    [*/] there is no match and the text stays. *)
Fixpoint stripBlockComments (inside : bool) (s : string) : string :=
  match s with
  | EmptyString => EmptyString
  | String c t =>
      if inside then
        match c, t with
        | "*"%char, String "/"%char t' => stripBlockComments false t'
        | _, _ => stripBlockComments true t
        end
      else
        match c, t with
        | "/"%char, String "*"%char t' =>
            if includes t' "*/" then stripBlockComments true t'
            else String c (stripBlockComments false t)
        | _, _ => String c (stripBlockComments false t)
        end
  end.

(** [s.split(/\s+/)[0]]: the code units before the first white space (the
    whole string when there is none, the empty string for the empty
    string). *)
Definition firstField (s : string) : string :=
  takeWhile (fun c => negb (isWhiteSpace c)) s.

(** The match of [/^(\s*select\s+)/i] on [s], when there is one: the matched
    text (group 1) and the text behind it. *)
Definition matchLeadingSelect (s : string) : option (string * string) :=
  let lead := takeWhile isWhiteSpace s in
  let s1 := dropWhile isWhiteSpace s in
  let kw := take 6 s1 in
  let s2 := drop 6 s1 in
  let gap := takeWhile isWhiteSpace s2 in
  if (map canonicalize kw =? "SELECT") && negb (gap =? "")
  then Some (lead ++ kw ++ gap, dropWhile isWhiteSpace s2)
  else None.

Definition noWhiteSpace (s : string) : bool :=
  forallb (fun c => negb (isWhiteSpace c)) s.

(** Template-literal rendering of a number that is an integer of magnitude
    below 10^21: plain decimal digits, with a minus sign when negative.
    (From 10^21 on JavaScript switches to exponent notation, and a number
    with a fraction is not an integer; the statements below that depend on
    the rendering say which numbers they are about.) *)
Definition showInt (n : Z) : string := NilZero.string_of_int (Z.to_int n).

End Js.

(** ** Exceptions and results *)

(** What a JavaScript [throw] carries: an [Error] object with its message,
    or a value that is not an [Error]. *)
Inductive Thrown : Type :=
| JsError (message : string)
| NotAnError.

Inductive Result (A : Type) : Type :=
| Ok (value : A)
| Throw (e : Thrown).
Arguments Ok {A} value.
Arguments Throw {A} e.

(** ** The state threaded through the asynchronous methods *)

(** Session switches of the one server session behind the pool. *)
Record Session : Type := mkSession {
  showplan_all : bool;
  statistics_io : bool;
  statistics_time : bool
}.

(** [pool] tells whether [DatabaseConnection.pool] is set, [issued] lists the
    texts sent with [request.query] (oldest first), [clockReads] counts the
    calls of [Date.now()]. *)
Record World : Type := mkWorld {
  pool : bool;
  session : Session;
  issued : list string;
  clockReads : nat
}.

Definition M (S A : Type) : Type := S -> Result A * S.

Definition ret {S A} (a : A) : M S A := fun w => (Ok a, w).

Definition throw {S A} (e : Thrown) : M S A := fun w => (Throw e, w).

Definition bind {S A B} (m : M S A) (k : A -> M S B) : M S B :=
  fun w => match m w with
           | (Ok a, w') => k a w'
           | (Throw e, w') => (Throw e, w')
           end.

(** [try { body } catch (error) { handler }] *)
Definition tryCatch {S A} (body : M S A) (handler : Thrown -> M S A) : M S A :=
  fun w => match body w with
           | (Ok a, w') => (Ok a, w')
           | (Throw e, w') => handler e w'
           end.

Definition lift {S A} (r : Result A) : M S A := fun w => (r, w).

Declare Scope js_scope.
Delimit Scope js_scope with js.
Notation "x <- m ;; k" := (bind m (fun x => k))
  (at level 61, m at next level, right associativity) : js_scope.
Notation "m ;;; k" := (bind m (fun _ => k))
  (at level 61, right associativity) : js_scope.
Local Open Scope js_scope.

(** [error instanceof Error ? error.message : 'Unknown error'] *)
Definition messageOf (error : Thrown) : string :=
  match error with
  | JsError message => message
  | NotAnError => "Unknown error"
  end.

(** What the server does on a SET statement that it accepts; every other
    text leaves the switches as they are. *)
Definition applySet (text : string) (s : Session) : Session :=
  if text =? "SET SHOWPLAN_ALL ON" then
    mkSession true (statistics_io s) (statistics_time s)
  else if text =? "SET SHOWPLAN_ALL OFF" then
    mkSession false (statistics_io s) (statistics_time s)
  else if text =? "SET STATISTICS IO ON" then
    mkSession (showplan_all s) true (statistics_time s)
  else if text =? "SET STATISTICS IO OFF" then
    mkSession (showplan_all s) false (statistics_time s)
  else if text =? "SET STATISTICS TIME ON" then
    mkSession (showplan_all s) (statistics_io s) true
  else if text =? "SET STATISTICS TIME OFF" then
    mkSession (showplan_all s) (statistics_io s) false
  else s.

(** ** database/queryExecutor.ts *)

Module QueryExecutor.

Record Recordset (Row : Type) : Type := mkRecordset {
  rs_columns : option (list string);   (* Object.keys(recordset.columns) *)
  rs_rows : list Row
}.
Arguments mkRecordset {Row}.
Arguments rs_columns {Row}.
Arguments rs_rows {Row}.

(** The value a successful [request.query] resolves to. *)
Record QueryReply (Row : Type) : Type := mkReply {
  recordset : option (Recordset Row)
}.
Arguments mkReply {Row}.
Arguments recordset {Row}.

Record QueryResult (Row : Type) : Type := mkQueryResult {
  columns : list string;
  rows : list Row;
  rowCount : nat;
  executionTime : Z
}.
Arguments mkQueryResult {Row}.
Arguments columns {Row}.
Arguments rows {Row}.
Arguments rowCount {Row}.
Arguments executionTime {Row}.

Record QueryOptions : Type := mkOptions {
  maxRows : option Z;
  timeout : option Z
}.

Record QueryStatistics : Type := mkStatistics {
  logicalReads : Z;
  physicalReads : Z;
  cpuTime : Z;
  elapsedTime : Z
}.

Definition MAX_ROWS : Z := 1000.
Definition DEFAULT_TIMEOUT : Z := 30000.

Definition forbiddenKeywords : list string :=
  [ "insert"; "update"; "delete"; "drop"; "create"; "alter";
    "truncate"; "merge"; "exec"; "execute"; "sp_";
    "xp_"; "bulk"; "openrowset"; "opendatasource" ].

Definition forbiddenKeywordError (keyword : string) : Thrown :=
  JsError ("Query contains forbidden keyword: " ++ keyword
           ++ ". Only SELECT statements are allowed.").

Definition notSelectError : Thrown :=
  JsError "Only SELECT statements and CTEs (WITH clause) are allowed.".

Definition removeComments (query : string) : string :=
  let result := Js.stripLineComments false query in
  Js.stripBlockComments false result.

(** [removeComments(normalizedQuery).trim().split(/\s+/)[0]] *)
Definition firstWord (query : string) : string :=
  let normalizedQuery := Js.toLowerCase (Js.trim query) in
  let queryWithoutComments := removeComments normalizedQuery in
  Js.firstField (Js.trim queryWithoutComments).

(** The [for ... of] loop over the keywords throws at the first keyword, in
    the order of the list, that the normalized text includes.  The last
    [if] of the method only writes a diagnostic. *)
Definition validateReadOnlyQuery (query : string) : Result unit :=
  let normalizedQuery := Js.toLowerCase (Js.trim query) in
  match find (fun keyword => Js.includes normalizedQuery keyword)
             forbiddenKeywords with
  | Some keyword => Throw (forbiddenKeywordError keyword)
  | None =>
      if negb (firstWord query =? "select") && negb (firstWord query =? "with")
      then Throw notSelectError
      else Ok tt
  end.

Definition addRowLimit (query : string) (maxRows : Z) : string :=
  let normalizedQuery := Js.toLowerCase (Js.trim query) in
  if Js.includes normalizedQuery "top " || Js.includes normalizedQuery "top("
  then query
  else if Js.startsWith normalizedQuery "select " then
    match Js.matchLeadingSelect query with
    | Some (group1, behind) =>
        group1 ++ "TOP " ++ Js.showInt maxRows ++ " " ++ behind
    | None => query
    end
  else query.

(** [Math.min(options.maxRows || this.MAX_ROWS, this.MAX_ROWS)]: [||] takes
    the right operand when the left one is undefined or 0. *)
Definition effectiveMaxRows (options : QueryOptions) : Z :=
  let requested := match maxRows options with
                   | Some n => if (n =? 0)%Z then MAX_ROWS else n
                   | None => MAX_ROWS
                   end in
  Z.min requested MAX_ROWS.

(** [keyword] occurs in [text] up to the case of letters: some piece of
    [text] lowercases to [keyword]. *)
Definition containsIgnoringCase (text keyword : string) : Prop :=
  exists pre mid post, text = pre ++ mid ++ post /\ Js.toLowerCase mid = keyword.

Section Methods.

Variable Row : Type.

(** The server: what [request.query(text)] settles to, given the texts
    issued before.  [Throw] covers every rejection (connectivity,
    permission, syntax, time-out). *)
Variable server : list string -> string -> Result (QueryReply Row).

(** [clock k] is the value of the [k]-th call of [Date.now()]. *)
Variable clock : nat -> Z.

Definition dateNow : M World Z :=
  fun w => (Ok (clock (clockReads w)),
            mkWorld (pool w) (session w) (issued w) (S (clockReads w))).

(** [this.db.getPool()] *)
Definition getPool : M World unit :=
  fun w => if pool w then (Ok tt, w)
           else (Throw (JsError "Database not connected. Call connect() first."), w).

(** [await request.query(text)] *)
Definition requestQuery (text : string) : M World (QueryReply Row) :=
  fun w =>
    match server (issued w) text with
    | Ok reply =>
        (Ok reply, mkWorld (pool w) (applySet text (session w))
                           (issued w ++ [text]) (clockReads w))
    | Throw e =>
        (Throw e, mkWorld (pool w) (session w)
                          (issued w ++ [text]) (clockReads w))
    end.

Definition rowsOf (result : QueryReply Row) : list Row :=
  match recordset result with
  | Some rs => rs_rows rs
  | None => []
  end.

(** The method also computes [options.timeout || DEFAULT_TIMEOUT] and never
    uses it. *)
Definition executeQuery (query : string) (options : QueryOptions)
  : M World (QueryResult Row) :=
  lift (validateReadOnlyQuery query) ;;;
  startTime <- dateNow ;;
  getPool ;;;
  let maxRows := effectiveMaxRows options in
  tryCatch
    (let modifiedQuery := addRowLimit query maxRows in
     result <- requestQuery modifiedQuery ;;
     endTime <- dateNow ;;
     let executionTime := (endTime - startTime)%Z in
     let columns := match recordset result with
                    | Some rs => match rs_columns rs with
                                 | Some keys => keys
                                 | None => []
                                 end
                    | None => []
                    end in
     ret (mkQueryResult columns (rowsOf result)
                        (List.length (rowsOf result)) executionTime))
    (fun error =>
       endTime <- dateNow ;;
       let executionTime := (endTime - startTime)%Z in
       throw (JsError ("Query execution failed (" ++ Js.showInt executionTime
                       ++ "ms): " ++ messageOf error))).

Definition explainQuery (query : string) : M World (list Row) :=
  lift (validateReadOnlyQuery query) ;;;
  getPool ;;;
  tryCatch
    (requestQuery "SET SHOWPLAN_ALL ON" ;;;
     result <- requestQuery query ;;
     requestQuery "SET SHOWPLAN_ALL OFF" ;;;
     ret (rowsOf result))
    (fun error =>
       throw (JsError ("Failed to get query execution plan: "
                       ++ messageOf error))).

Definition getQueryStatistics (query : string) : M World QueryStatistics :=
  lift (validateReadOnlyQuery query) ;;;
  getPool ;;;
  tryCatch
    (requestQuery "SET STATISTICS IO ON" ;;;
     requestQuery "SET STATISTICS TIME ON" ;;;
     startTime <- dateNow ;;
     requestQuery query ;;;
     endTime <- dateNow ;;
     let elapsedTime := (endTime - startTime)%Z in
     requestQuery "SET STATISTICS IO OFF" ;;;
     requestQuery "SET STATISTICS TIME OFF" ;;;
     ret (mkStatistics 0 0 0 elapsedTime))
    (fun error =>
       throw (JsError ("Failed to get query statistics: "
                       ++ messageOf error))).

End Methods.

End QueryExecutor.

(** ** database/schema.ts *)

Module SchemaDiscovery.

Record TableInfo : Type := mkTableInfo {
  schema : string;
  name : string;
  type : string;
  rowCount : option Z
}.

Record ColumnInfo : Type := mkColumnInfo {
  col_name : string;
  dataType : string;
  maxLength : option Z;
  isNullable : bool;
  col_isPrimaryKey : bool;
  isForeignKey : bool;
  defaultValue : option string;
  description : option string
}.

Record IndexInfo : Type := mkIndexInfo {
  idx_name : string;
  idx_columns : list string;
  isUnique : bool;
  idx_isPrimaryKey : bool
}.

Record ForeignKeyInfo : Type := mkForeignKeyInfo {
  fk_name : string;
  column : string;
  referencedTable : string;
  referencedColumn : string;
  referencedSchema : string
}.

Record TableSchema : Type := mkTableSchema {
  table : TableInfo;
  columns : list ColumnInfo;
  indexes : list IndexInfo;
  foreignKeys : list ForeignKeyInfo
}.

(** Rows of the five catalog statements, as the driver delivers them. *)
Record TableRow : Type := mkTableRow {
  row_schema : string;
  row_name : string;
  row_type : string
}.

Record ColumnRow : Type := mkColumnRow {
  cr_name : string;
  cr_dataType : string;
  cr_maxLength : option Z;
  cr_isNullable : Z;              (* CASE ... THEN 1 ELSE 0 END *)
  cr_isPrimaryKey : Z;
  cr_isForeignKey : Z;
  cr_defaultValue : option string;
  cr_description : option string
}.

Record IndexRow : Type := mkIndexRow {
  ir_indexName : string;
  ir_columns : string;            (* STRING_AGG(c.name, ', ') *)
  ir_isUnique : bool;
  ir_isPrimaryKey : bool
}.

Record ForeignKeyRow : Type := mkForeignKeyRow {
  fr_constraintName : string;
  fr_columnName : string;
  fr_referencedSchema : string;
  fr_referencedTable : string;
  fr_referencedColumn : string
}.

(** The statements of the class, by the method that sends them, with the
    schema and table name they are sent for. *)
Inductive Statement : Type :=
| TableInfoQuery (schemaName tableName : string)
| RowCountQuery (schemaName tableName : string)
| ColumnsQuery (schemaName tableName : string)
| IndexesQuery (schemaName tableName : string)
| ForeignKeysQuery (schemaName tableName : string).

(** The catalog behind the pool: what each statement settles to. *)
Record Catalog : Type := mkCatalog {
  tableInfoRows : string -> string -> Result (list TableRow);
  rowCountRows : string -> string -> Result (list Z);
  columnRows : string -> string -> Result (list ColumnRow);
  indexRows : string -> string -> Result (list IndexRow);
  foreignKeyRows : string -> string -> Result (list ForeignKeyRow)
}.

Record Conn : Type := mkConn {
  connected : bool;               (* DatabaseConnection.pool is set *)
  sent : list Statement           (* oldest first *)
}.

Definition isRowCountQuery (st : Statement) : bool :=
  match st with
  | RowCountQuery _ _ => true
  | _ => false
  end.

(** [Boolean(n)] for a number. *)
Definition BooleanOfNumber (n : Z) : bool := negb (n =? 0)%Z.

(** [s.split(sep)] for a non-empty [sep]; [skip] counts the code units of a
    separator still to pass over, [cur] is the piece being collected. *)
Fixpoint splitFrom (sep : string) (skip : nat) (cur s : string) : list string :=
  match s with
  | EmptyString => [cur]
  | String c t =>
      match skip with
      | S k => splitFrom sep k cur t
      | O =>
          if Js.startsWith s sep
          then cur :: splitFrom sep (String.length sep - 1) "" t
          else splitFrom sep 0 (cur ++ String c "") t
      end
  end.

Definition split (s sep : string) : list string := splitFrom sep 0 "" s.

Definition columnOfRow (row : ColumnRow) : ColumnInfo :=
  mkColumnInfo (cr_name row) (cr_dataType row) (cr_maxLength row)
    (BooleanOfNumber (cr_isNullable row))
    (BooleanOfNumber (cr_isPrimaryKey row))
    (BooleanOfNumber (cr_isForeignKey row))
    (cr_defaultValue row) (cr_description row).

Definition indexOfRow (row : IndexRow) : IndexInfo :=
  mkIndexInfo (ir_indexName row) (split (ir_columns row) ", ")
    (ir_isUnique row) (ir_isPrimaryKey row).

Definition foreignKeyOfRow (row : ForeignKeyRow) : ForeignKeyInfo :=
  mkForeignKeyInfo (fr_constraintName row) (fr_columnName row)
    (fr_referencedTable row) (fr_referencedColumn row)
    (fr_referencedSchema row).

Definition notFoundError (schemaName tableName : string) : Thrown :=
  JsError ("Table " ++ schemaName ++ "." ++ tableName ++ " not found").

(** The invariant of [TableSchema]: every column named by an index or a
    foreign key is the name of a listed column. *)
Definition hasColumn (cols : list ColumnInfo) (c : string) : bool :=
  existsb (fun col => col_name col =? c) cols.

Definition consistentData (cols : list ColumnInfo) (ixs : list IndexInfo)
    (fks : list ForeignKeyInfo) : bool :=
  forallb (fun ix => forallb (hasColumn cols) (idx_columns ix)) ixs
  && forallb (fun fk => hasColumn cols (column fk)) fks.

Definition consistent (ts : TableSchema) : bool :=
  consistentData (columns ts) (indexes ts) (foreignKeys ts).

Section Methods.

Variable catalog : Catalog.

Definition getPool : M Conn unit :=
  fun w => if connected w then (Ok tt, w)
           else (Throw (JsError "Database not connected. Call connect() first."), w).

(** [await pool.request().input(...).input(...).query(...)] *)
Definition send {A} (st : Statement) (answer : Result A) : M Conn A :=
  fun w => (answer, mkConn (connected w) (sent w ++ [st])).

Definition getTableColumns (schemaName tableName : string)
  : M Conn (list ColumnInfo) :=
  getPool ;;;
  result <- send (ColumnsQuery schemaName tableName)
                 (columnRows catalog schemaName tableName) ;;
  ret (List.map columnOfRow result).

Definition getTableIndexes (schemaName tableName : string)
  : M Conn (list IndexInfo) :=
  getPool ;;;
  result <- send (IndexesQuery schemaName tableName)
                 (indexRows catalog schemaName tableName) ;;
  ret (List.map indexOfRow result).

Definition getTableForeignKeys (schemaName tableName : string)
  : M Conn (list ForeignKeyInfo) :=
  getPool ;;;
  result <- send (ForeignKeysQuery schemaName tableName)
                 (foreignKeyRows catalog schemaName tableName) ;;
  ret (List.map foreignKeyOfRow result).

Definition getTableSchema (schemaName tableName : string)
  : M Conn TableSchema :=
  getPool ;;;
  tableResult <- send (TableInfoQuery schemaName tableName)
                      (tableInfoRows catalog schemaName tableName) ;;
  match tableResult with
  | [] => throw (notFoundError schemaName tableName)
  | row0 :: _ =>
      let table := mkTableInfo (row_schema row0) (row_name row0)
                               (row_type row0) None in
      table <-
        (if type table =? "USER_TABLE" then
           tryCatch
             (countResult <- send (RowCountQuery schemaName tableName)
                                  (rowCountRows catalog schemaName tableName) ;;
              match countResult with
              | row_count :: _ =>
                  ret (mkTableInfo (schema table) (name table) (type table)
                                   (Some row_count))
              | [] => throw (JsError "Cannot read properties of undefined (reading 'row_count')")
              end)
             (fun error => ret table)
         else ret table) ;;
      columns <- getTableColumns schemaName tableName ;;
      indexes <- getTableIndexes schemaName tableName ;;
      foreignKeys <- getTableForeignKeys schemaName tableName ;;
      ret (mkTableSchema table columns indexes foreignKeys)
  end.

End Methods.

End SchemaDiscovery.

(** ** Concrete servers and catalogs *)

Module Scenario.
Import QueryExecutor.

(** A connected pool, every session switch off, nothing sent yet. *)
Definition idle : World := mkWorld true (mkSession false false false) [] 0.

(** A clock that moves on by 7 ms between two readings. *)
Definition tick (k : nat) : Z := (100 + 7 * Z.of_nat k)%Z.

(** A server that answers every text with one row of one column. *)
Definition okServer (_ : list string) (_ : string) : Result (QueryReply unit) :=
  Ok (mkReply (Some (mkRecordset (Some ["col"]) [tt]))).

(** A server that accepts the SET statements and loses the connection on
    every other text. *)
Definition dropServer (_ : list string) (text : string)
  : Result (QueryReply unit) :=
  if Js.startsWith text "SET " then Ok (mkReply None)
  else Throw (JsError "Connection lost").

(** A server that accepts the SET statements and runs into the time-out on
    every other text. *)
Definition slowServer (_ : list string) (text : string)
  : Result (QueryReply unit) :=
  if Js.startsWith text "SET " then Ok (mkReply None)
  else Throw (JsError "Timeout: Request failed to complete in 30000ms").

Import SchemaDiscovery.

Definition fresh : Conn := mkConn true [].

Definition idColumn : ColumnRow :=
  mkColumnRow "id" "int" None 0 1 0 None None.

(** A catalog whose index and foreign-key rows name columns that the
    column rows do not have. *)
Definition ghostCatalog : Catalog :=
  mkCatalog
    (fun _ _ => Ok [mkTableRow "dbo" "orders" "USER_TABLE"])
    (fun _ _ => Ok [3%Z])
    (fun _ _ => Ok [idColumn])
    (fun _ _ => Ok [mkIndexRow "IX_orders" "id, ghost" false false])
    (fun _ _ => Ok [mkForeignKeyRow "FK_orders" "phantom" "dbo" "customers" "id"]).

(** A catalog without any table or view. *)
Definition emptyCatalog : Catalog :=
  mkCatalog (fun _ _ => Ok []) (fun _ _ => Ok []) (fun _ _ => Ok [])
            (fun _ _ => Ok []) (fun _ _ => Ok []).

(** A base table whose rows the caller may not read. *)
Definition deniedCatalog : Catalog :=
  mkCatalog
    (fun _ _ => Ok [mkTableRow "dbo" "orders" "USER_TABLE"])
    (fun _ _ => Throw (JsError "The SELECT permission was denied"))
    (fun _ _ => Ok [idColumn])
    (fun _ _ => Ok [mkIndexRow "PK_orders" "id" true true])
    (fun _ _ => Ok []).

(** A view. *)
Definition viewCatalog : Catalog :=
  mkCatalog
    (fun _ _ => Ok [mkTableRow "dbo" "recent" "VIEW"])
    (fun _ _ => Ok [5%Z])
    (fun _ _ => Ok [idColumn])
    (fun _ _ => Ok [])
    (fun _ _ => Ok []).

End Scenario.

(** ** database/config.ts: [DatabaseConnection] *)

Module DatabaseConnection.

(** What one run of [new sql.ConnectionPool(config)] followed by
    [await pool.connect()] comes to: the pool connects, the constructor
    throws, or the pool is built and [connect] rejects. *)
Inductive Attempt : Type :=
| Connects
| ConstructorThrows (e : Thrown)
| ConnectRejects (e : Thrown).

(** [db_pool] is the field [pool]: [None] for null, [Some c] for a pool
    object whose property [connected] is [c].  [attempts] and [closings]
    count the connection attempts and the calls of [pool.close()]. *)
Record Db : Type := mkDb {
  db_pool : option bool;
  attempts : nat;
  closings : nat
}.

Section Methods.

(** The driver: how the [k]-th connection attempt and the [k]-th
    [pool.close()] end.  A pool is connected only after its [connect] has
    resolved. *)
Variable attempt : nat -> Attempt.
Variable closing : nat -> Result unit.

Definition connect : M Db unit :=
  fun w =>
    match db_pool w with
    | Some _ => (Ok tt, w)
    | None =>
        match attempt (attempts w) with
        | Connects =>
            (Ok tt, mkDb (Some true) (S (attempts w)) (closings w))
        | ConstructorThrows e =>
            (Throw (JsError ("Database connection failed: " ++ messageOf e)),
             mkDb None (S (attempts w)) (closings w))
        | ConnectRejects e =>
            (Throw (JsError ("Database connection failed: " ++ messageOf e)),
             mkDb (Some false) (S (attempts w)) (closings w))
        end
    end.

Definition disconnect : M Db unit :=
  fun w =>
    match db_pool w with
    | Some c =>
        match closing (closings w) with
        | Ok _ => (Ok tt, mkDb None (attempts w) (S (closings w)))
        | Throw e => (Throw e, mkDb (Some c) (attempts w) (S (closings w)))
        end
    | None => (Ok tt, w)
    end.

Definition getPool : M Db unit :=
  fun w =>
    match db_pool w with
    | Some _ => (Ok tt, w)
    | None =>
        (Throw (JsError "Database not connected. Call connect() first."), w)
    end.

(** [this.pool !== null && this.pool.connected] *)
Definition isConnected (w : Db) : bool :=
  match db_pool w with
  | Some c => c
  | None => false
  end.

(** index.ts, [MSSQLMCPServer.ensureConnected] *)
Definition ensureConnected : M Db unit :=
  fun w => if negb (isConnected w) then connect w else (Ok tt, w).

End Methods.

End DatabaseConnection.

(** ** database/schema.ts, [getTables], and the [search_tables] tool *)

Module Inventory.
Import SchemaDiscovery.

(** [linked] tells whether [DatabaseConnection.pool] is set; [listings]
    counts how often the statement of [getTables] was sent. *)
Record Link : Type := mkLink {
  linked : bool;
  listings : nat
}.

Section Methods.

(** What the statement of [getTables] settles to. *)
Variable tableRows : Result (list TableRow).

Definition getPool : M Link unit :=
  fun w => if linked w then (Ok tt, w)
           else (Throw (JsError "Database not connected. Call connect() first."), w).

Definition getTables : M Link (list TableInfo) :=
  getPool ;;;
  result <- (fun w => (tableRows, mkLink (linked w) (S (listings w)))) ;;
  ret (List.map (fun row => mkTableInfo (row_schema row) (row_name row)
                                         (row_type row) None) result).

(** The filter of the [search_tables] case in index.ts. *)
Definition matchesSearch (searchTerm : string) (table : TableInfo) : bool :=
  Js.includes (Js.toLowerCase (name table)) (Js.toLowerCase searchTerm)
  || Js.includes (Js.toLowerCase (schema table)) (Js.toLowerCase searchTerm).

(** The [search_tables] case up to the value handed to [JSON.stringify]. *)
Definition searchTables (searchTerm : string) : M Link (list TableInfo) :=
  tables <- getTables ;;
  ret (List.filter (matchesSearch searchTerm) tables).

End Methods.

End Inventory.

(** ** index.ts: resource URIs *)

Module Resources.
Import SchemaDiscovery.

(** The [uri] that the list-resources handler gives a table. *)
Definition resourceUri (table : TableInfo) : string :=
  "mssql://schema/" ++ schema table ++ "/" ++ name table.

Definition notSlash (c : ascii) : bool := negb (Ascii.eqb c "/").

(** [uri.match(/^mssql:\/\/schema\/([^\/]+)\/(.+)$/)], groups 1 and 2: the
    greedy [[^\/]+] takes every code unit up to the first [/] behind the
    prefix, and [.+$] wants the rest non-empty and free of line
    terminators. *)
Definition matchResourceUri (uri : string) : option (string * string) :=
  if Js.startsWith uri "mssql://schema/" then
    let behind := Js.drop 15 uri in
    let group1 := Js.takeWhile notSlash behind in
    match Js.dropWhile notSlash behind with
    | String _ group2 =>
        if negb (group1 =? "") && negb (group2 =? "")
           && Js.forallb (fun c => negb (Js.isLineTerminator c)) group2
        then Some (group1, group2)
        else None
    | EmptyString => None
    end
  else None.

End Resources.

(** A driver whose first connection attempt is rejected and whose later
    ones succeed; one that always connects. *)
Module Drivers.
Import DatabaseConnection.

Definition flaky (k : nat) : Attempt :=
  match k with
  | O => ConnectRejects (JsError "Failed to connect to db:1433 - ECONNREFUSED")
  | S _ => Connects
  end.

Definition steady (_ : nat) : Attempt := Connects.

Definition closes (_ : nat) : Result unit := Ok tt.

Definition unset : Db := mkDb None 0 0.

End Drivers.

(** More catalogs and table listings. *)
Module Fixtures.
Import SchemaDiscovery.

(** A base table whose index statement fails. *)
Definition brokenIndexCatalog : Catalog :=
  mkCatalog
    (fun _ _ => Ok [mkTableRow "dbo" "orders" "USER_TABLE"])
    (fun _ _ => Ok [3%Z])
    (fun _ _ => Ok [Scenario.idColumn])
    (fun _ _ => Throw (JsError "Invalid object name 'sys.indexes'"))
    (fun _ _ => Ok []).

Definition listing : Result (list TableRow) :=
  Ok [mkTableRow "dbo" "Orders" "USER_TABLE";
      mkTableRow "sales" "Invoices" "USER_TABLE";
      mkTableRow "dbo" "RecentOrders" "VIEW"].

Definition linkUp : Inventory.Link := Inventory.mkLink true 0.


End Fixtures.

(** The code units of a rendered integer: a digit or the sign. *)
Module JsNumber.

Definition isSignOrDigit (c : ascii) : bool :=
  let n := Js.code c in (((48 <=? n) && (n <=? 57)) || (n =? 45))%nat.

(** [piece] occurs in [text]. *)
Definition occursIn (piece text : string) : Prop :=
  exists pre post, text = pre ++ piece ++ post.




End JsNumber.

(** * Facts about the string functions *)

Module JsFacts.
Import Js.

Lemma app_assoc (a b c : string) : (a ++ b) ++ c = a ++ (b ++ c).
Proof. induction a as [|x a IH]; simpl; [reflexivity | now rewrite IH]. Qed.

Lemma app_nil_r (a : string) : a ++ "" = a.
Proof. induction a as [|x a IH]; simpl; [reflexivity | now rewrite IH]. Qed.

Lemma map_app f (a b : string) : map f (a ++ b) = map f a ++ map f b.
Proof. induction a as [|x a IH]; simpl; [reflexivity | now rewrite IH]. Qed.

(** A split of the image of [map] comes from a split of the argument. *)
Lemma map_app_inv f (s a b : string) :
  map f s = a ++ b -> exists s1 s2, s = s1 ++ s2 /\ map f s1 = a /\ map f s2 = b.
Proof.
  revert s; induction a as [|x a IH]; intros s H.
  - exists "", s. auto.
  - destruct s as [|c s]; [discriminate|].
    simpl in H. injection H as Hc Hs.
    destruct (IH _ Hs) as (s1 & s2 & -> & <- & <-).
    exists (String c s1), s2. simpl. now rewrite Hc.
Qed.

Lemma startsWith_spec (s p : string) :
  startsWith s p = true <-> exists r, s = p ++ r.
Proof.
  unfold startsWith. revert s; induction p as [|x p IH]; intros s.
  - destruct s; simpl; split; eauto.
  - destruct s as [|c s]; simpl.
    + split; [discriminate | intros [r H]; discriminate].
    + destruct (ascii_dec x c) as [->|Hne].
      * rewrite IH. split; intros [r H]; exists r; congruence.
      * split; [discriminate | intros [r H]; congruence].
Qed.

Lemma includes_spec (s sub : string) :
  includes s sub = true <-> exists pre post, s = pre ++ sub ++ post.
Proof.
  split.
  - induction s as [|c s IH]; cbn [includes];
      destruct (startsWith _ sub) eqn:E.
    + apply startsWith_spec in E as [r E]. intros _. now exists "", r.
    + discriminate.
    + apply startsWith_spec in E as [r E]. intros _. now exists "", r.
    + intros H. destruct (IH H) as (pre & post & ->).
      now exists (String c pre), post.
  - intros (pre & post & ->).
    induction pre as [|c pre IH].
    + assert (E : startsWith (sub ++ post) sub = true)
        by (apply startsWith_spec; eauto).
      cbn [append]. destruct (sub ++ post); cbn [includes]; now rewrite E.
    + cbn [append includes].
      destruct (startsWith _ sub); [reflexivity | exact IH].
Qed.

Lemma takeWhile_dropWhile p (s : string) : s = takeWhile p s ++ dropWhile p s.
Proof.
  induction s as [|c s IH]; simpl; [reflexivity|].
  destruct (p c); simpl; congruence.
Qed.

Lemma forallb_takeWhile p (s : string) : forallb p (takeWhile p s) = true.
Proof.
  induction s as [|c s IH]; simpl; [reflexivity|].
  destruct (p c) eqn:E; simpl; [now rewrite E|reflexivity].
Qed.

Lemma dropWhile_fixed p (s : string) : dropWhile p (dropWhile p s) = dropWhile p s.
Proof.
  induction s as [|c s IH]; simpl; [reflexivity|].
  destruct (p c) eqn:E; [exact IH | simpl; now rewrite E].
Qed.

(** [trimEnd] cuts a suffix off. *)
Lemma trimEnd_prefix (s : string) : exists r, s = trimEnd s ++ r.
Proof.
  induction s as [|c s [r IH]]; simpl.
  - now exists "".
  - destruct (isWhiteSpace c && (trimEnd s =? "")).
    + now exists (String c s).
    + exists r. simpl. congruence.
Qed.

(** [trim] cuts a prefix and a suffix off. *)
Lemma trim_middle (s : string) : exists l r, s = l ++ trim s ++ r.
Proof.
  unfold trim, trimStart.
  destruct (trimEnd_prefix (dropWhile isWhiteSpace s)) as [r H].
  exists (takeWhile isWhiteSpace s), r.
  rewrite <- H. apply takeWhile_dropWhile.
Qed.

Lemma trimEnd_app (a x : string) :
  trimEnd x <> "" -> trimEnd (a ++ x) = a ++ trimEnd x.
Proof.
  intros Hx. induction a as [|c a IH]; simpl; [reflexivity|].
  rewrite IH. destruct (a ++ trimEnd x) eqn:E.
  - destruct a; simpl in E; [contradiction | discriminate].
  - now rewrite andb_false_r.
Qed.

Lemma trimEnd_keeps (c : ascii) (post : string) :
  isWhiteSpace c = false ->
  trimEnd (String c post) = String c (trimEnd post).
Proof. intros H. simpl. now rewrite H. Qed.

Lemma trimStart_keeps (pre : string) (c : ascii) (rest : string) :
  isWhiteSpace c = false ->
  exists pre', trimStart (pre ++ String c rest) = pre' ++ String c rest.
Proof.
  intros H. unfold trimStart. induction pre as [|x pre [pre' IH]]; simpl.
  - exists "". now rewrite H.
  - destruct (isWhiteSpace x).
    + now exists pre'.
    + now exists (String x pre).
Qed.

(** A piece of the text that begins and ends with code units other than
    white space is still there after [trim]. *)
Lemma trim_keeps (pre body body' post : string) (c d : ascii) :
  isWhiteSpace c = false -> isWhiteSpace d = false ->
  String c body = body' ++ String d "" ->
  exists pre' post',
    trim (pre ++ String c body ++ post) = pre' ++ String c body ++ post'.
Proof.
  intros Hc Hd E. unfold trim.
  destruct (trimStart_keeps pre c (body ++ post) Hc) as [pre' Hs].
  exists pre', (trimEnd post).
  change (String c body ++ post) with (String c (body ++ post)).
  rewrite Hs.
  change (String c (body ++ post)) with (String c body ++ post).
  change (String c body ++ trimEnd post)
    with (String c (body ++ trimEnd post)).
  change (String c (body ++ trimEnd post)) with (String c body ++ trimEnd post).
  rewrite E, !app_assoc. cbn [append].
  rewrite <- !app_assoc.
  rewrite trimEnd_app by (rewrite trimEnd_keeps by exact Hd; discriminate).
  now rewrite trimEnd_keeps by exact Hd.
Qed.

Lemma last_split (s : string) :
  s <> "" -> exists body d, s = body ++ String d "".
Proof.
  induction s as [|c s IH]; intros H; [contradiction|].
  destruct s as [|c' s].
  - now exists "", c.
  - destruct IH as (body & d & E); [discriminate|].
    exists (String c body), d. simpl. now rewrite E.
Qed.

Lemma isWhiteSpace_toLowerChar (c : ascii) :
  isWhiteSpace (toLowerChar c) = isWhiteSpace c.
Proof. destruct c as [[] [] [] [] [] [] [] []]; reflexivity. Qed.

Lemma forallb_app p (a b : string) :
  forallb p (a ++ b) = forallb p a && forallb p b.
Proof.
  induction a as [|c a IH]; simpl; [reflexivity|].
  now rewrite IH, andb_assoc.
Qed.

Lemma noWhiteSpace_toLowerCase (s : string) :
  noWhiteSpace (toLowerCase s) = noWhiteSpace s.
Proof.
  unfold noWhiteSpace, toLowerCase.
  induction s as [|c s IH]; cbn [map forallb]; [reflexivity|].
  now rewrite isWhiteSpace_toLowerChar, IH.
Qed.

(** A piece without white space that occurs in the text occurs in its
    trimmed, lowercased form, lowercased. *)
Lemma normalized_includes (query pre mid post : string) :
  query = pre ++ mid ++ post -> mid <> "" -> noWhiteSpace mid = true ->
  includes (toLowerCase (trim query)) (toLowerCase mid) = true.
Proof.
  intros -> Hne Hws.
  destruct mid as [|c body] eqn:E1; [contradiction|].
  destruct (last_split (String c body)) as (body' & d & E2); [discriminate|].
  assert (Hc : isWhiteSpace c = false).
  { unfold noWhiteSpace in Hws. simpl in Hws.
    apply andb_prop in Hws as [H _]. now apply negb_true_iff in H. }
  assert (Hd : isWhiteSpace d = false).
  { rewrite E2 in Hws. unfold noWhiteSpace in Hws.
    rewrite forallb_app in Hws. apply andb_prop in Hws as [_ H].
    simpl in H. rewrite andb_true_r in H. now apply negb_true_iff in H. }
  destruct (trim_keeps pre body body' post c d Hc Hd E2) as (pre' & post' & ->).
  apply includes_spec.
  exists (toLowerCase pre'), (toLowerCase post').
  unfold toLowerCase. now rewrite !map_app.
Qed.

End JsFacts.

(** * The regular expressions on sample texts *)

Section Samples.
Import QueryExecutor.

Example removeComments_line_and_block :
  removeComments "select a -- first
/* one */ from /* two */ t"
  = "select a 
 from  t".
Proof. reflexivity. Qed.

(** A block comment that is never closed is no match and stays. *)
Example removeComments_unclosed :
  removeComments "select 1 /* open" = "select 1 /* open"
  /\ removeComments "select /*/ 1" = "select /*/ 1".
Proof. split; reflexivity. Qed.

Example firstWord_behind_comment :
  firstWord "  /* plan */ Select 1" = "select"
  /\ firstWord "-- note
WITH c AS (SELECT 1) SELECT * FROM c" = "with"
  /\ firstWord "" = "".
Proof. repeat split. Qed.

Example matchLeadingSelect_samples :
  Js.matchLeadingSelect "  SeLeCT   x from t" = Some ("  SeLeCT   ", "x from t")
  /\ Js.matchLeadingSelect "selectx from t" = None
  /\ Js.matchLeadingSelect "with c as (select 1) select * from c" = None.
Proof. repeat split. Qed.

Example split_samples :
  SchemaDiscovery.split "a, b, c" ", " = ["a"; "b"; "c"]
  /\ SchemaDiscovery.split "a,b" ", " = ["a,b"]
  /\ SchemaDiscovery.split "" ", " = [""].
Proof. repeat split. Qed.

End Samples.

(** * The gatekeeper: [validateReadOnlyQuery] *)

Section Gatekeeper.
Import QueryExecutor JsFacts.

Lemma keywords_plain :
  Forall (fun k => k <> "" /\ Js.noWhiteSpace k = true) forbiddenKeywords.
Proof. repeat constructor; discriminate. Qed.

Lemma includes_contains (query named : string) :
  Js.includes (Js.toLowerCase (Js.trim query)) named = true ->
  containsIgnoringCase query named.
Proof.
  intros H. apply includes_spec in H as (a & b & H).
  apply map_app_inv in H as (s1 & s23 & Ht & _ & H).
  apply map_app_inv in H as (s2 & s3 & -> & H2 & _).
  destruct (trim_middle query) as (l & r & Hq).
  exists (l ++ s1), s2, (s3 ++ r).
  split; [|exact H2].
  rewrite Hq at 1. rewrite Ht. now rewrite !app_assoc.
Qed.

Lemma contains_includes (query keyword : string) :
  In keyword forbiddenKeywords -> containsIgnoringCase query keyword ->
  Js.includes (Js.toLowerCase (Js.trim query)) keyword = true.
Proof.
  intros Hin (pre & mid & post & Hq & Hk).
  pose proof (proj1 (Forall_forall _ _) keywords_plain _ Hin) as [Hne Hws].
  rewrite <- Hk. apply (normalized_includes query pre mid post Hq).
  - intros ->. now apply Hne.
  - rewrite <- Hk in Hws.
    unfold Js.toLowerCase in *. now rewrite <- (noWhiteSpace_toLowerCase mid).
Qed.

(** The loop over the keywords throws as soon as one of them occurs. *)
Lemma keyword_rejected (query keyword : string) :
  In keyword forbiddenKeywords -> containsIgnoringCase query keyword ->
  exists named,
    In named forbiddenKeywords
    /\ containsIgnoringCase query named
    /\ validateReadOnlyQuery query = Throw (forbiddenKeywordError named).
Proof.
  intros Hin Hc. pose proof (contains_includes _ _ Hin Hc) as Hi.
  unfold validateReadOnlyQuery.
  destruct (find _ forbiddenKeywords) as [named|] eqn:F.
  - apply find_some in F as [Hn Hinc].
    exists named. auto using includes_contains.
  - apply (find_none _ _ F) in Hin. cbv beta in Hin. congruence.
Qed.

(** A rejected text never reaches the server: the three methods settle with
    the gatekeeper's error in an unchanged state. *)
Lemma rejected_no_round_trip (Row : Type) server clock query e :
  validateReadOnlyQuery query = Throw e ->
  forall options w,
    executeQuery Row server clock query options w = (Throw e, w)
    /\ explainQuery Row server query w = (Throw e, w)
    /\ getQueryStatistics Row server clock query w = (Throw e, w).
Proof.
  intros H options w.
  unfold executeQuery, explainQuery, getQueryStatistics, bind, lift.
  now rewrite H.
Qed.

(** C2: a text in which a denylisted keyword occurs, in any case of
    letters and anywhere, is rejected; the message of the error is
    [Query contains forbidden keyword: <named>. Only SELECT statements are
    allowed.] for a denylisted keyword [named] that occurs in the text (the
    first one in the order of the list), and [executeQuery], [explainQuery]
    and [getQueryStatistics] settle with that error without sending anything
    to the server. *)
Theorem forbidden_keyword_rejected (query keyword : string) :
  In keyword forbiddenKeywords -> containsIgnoringCase query keyword ->
  exists named,
    let reason := "Query contains forbidden keyword: " ++ named
                  ++ ". Only SELECT statements are allowed." in
    In named forbiddenKeywords
    /\ containsIgnoringCase query named
    /\ validateReadOnlyQuery query = Throw (JsError reason)
    /\ forall (Row : Type) server clock options w,
         executeQuery Row server clock query options w
           = (Throw (JsError reason), w)
         /\ explainQuery Row server query w = (Throw (JsError reason), w)
         /\ getQueryStatistics Row server clock query w
           = (Throw (JsError reason), w).
Proof.
  intros Hin Hc.
  destruct (keyword_rejected query keyword Hin Hc) as (named & H1 & H2 & H3).
  exists named. cbv zeta. repeat split; try assumption;
    now apply rejected_no_round_trip.
Qed.

Lemma forbidden_keyword_rejected_witness :
  let query := "SELECT * FROM t; Drop TABLE t" in
  let reason :=
    "Query contains forbidden keyword: drop. Only SELECT statements are allowed." in
  validateReadOnlyQuery query = Throw (JsError reason)
  /\ forall (Row : Type) server clock options w,
       executeQuery Row server clock query options w = (Throw (JsError reason), w)
       /\ explainQuery Row server query w = (Throw (JsError reason), w)
       /\ getQueryStatistics Row server clock query w
          = (Throw (JsError reason), w).
Proof.
  cbv zeta.
  destruct (forbidden_keyword_rejected "SELECT * FROM t; Drop TABLE t" "drop")
    as (named & Hin & Hc & Hv & Hrt).
  - simpl. tauto.
  - exists "SELECT * FROM t; ", "Drop", " TABLE t". split; reflexivity.
  - assert (Hn : named = "drop").
    { assert (Hcode : validateReadOnlyQuery "SELECT * FROM t; Drop TABLE t"
                      = Throw (forbiddenKeywordError "drop")) by reflexivity.
      rewrite Hcode in Hv. clear - Hin Hv. simpl in Hin.
      repeat (destruct Hin as [<-|Hin]; [first [reflexivity | discriminate Hv]|]).
      contradiction. }
    subst named. split; [exact Hv | exact Hrt].
Defined.

(** C3: a text whose first word (after trimming, lowercasing and removing
    the comments) is neither [select] nor [with] is rejected, whether or
    not a denylisted keyword occurs in it; without such a keyword the error
    is the one of the leading-statement check. *)
Theorem leading_word_rejected (query : string) :
  firstWord query <> "select" -> firstWord query <> "with" ->
  (exists e, validateReadOnlyQuery query = Throw e)
  /\ ((forall keyword, In keyword forbiddenKeywords ->
         Js.includes (Js.toLowerCase (Js.trim query)) keyword = false) ->
      validateReadOnlyQuery query = Throw notSelectError).
Proof.
  intros Hs Hw.
  apply eqb_neq in Hs, Hw.
  unfold validateReadOnlyQuery. rewrite Hs, Hw. cbn [negb andb].
  split.
  - destruct (find _ forbiddenKeywords); eauto.
  - intros Hno. destruct (find _ forbiddenKeywords) as [named|] eqn:F;
      [|reflexivity].
    apply find_some in F as [Hn Hinc]. rewrite (Hno _ Hn) in Hinc.
    discriminate.
Qed.

Lemma leading_word_rejected_witness :
  firstWord "SHOW TABLES" = "show"
  /\ (exists e, validateReadOnlyQuery "SHOW TABLES" = Throw e)
  /\ validateReadOnlyQuery "SHOW TABLES" = Throw notSelectError.
Proof.
  split; [reflexivity|].
  assert (H1 : firstWord "SHOW TABLES" <> "select") by (vm_compute; discriminate).
  assert (H2 : firstWord "SHOW TABLES" <> "with") by (vm_compute; discriminate).
  destruct (leading_word_rejected "SHOW TABLES" H1 H2) as [Ha Hb].
  split; [exact Ha|].
  apply Hb. intros keyword Hin. simpl in Hin.
  repeat (destruct Hin as [<-|Hin]; [reflexivity|]). contradiction.
Defined.

(** The identifier [inserted_at] contains the keyword [insert]: the text
    below passes the leading-statement check, includes no other keyword of
    the list, and is rejected. *)
Lemma inserted_at_rejected :
  firstWord "SELECT inserted_at FROM t" = "select"
  /\ (forall keyword, In keyword forbiddenKeywords ->
        Js.includes (Js.toLowerCase (Js.trim "SELECT inserted_at FROM t")) keyword = true ->
        keyword = "insert")
  /\ validateReadOnlyQuery "SELECT inserted_at FROM t" <> Ok tt
  /\ validateReadOnlyQuery "SELECT inserted_at FROM t"
     = Throw (JsError "Query contains forbidden keyword: insert. Only SELECT statements are allowed.").
Proof.
  split; [reflexivity|]. split; [|split; [vm_compute; discriminate | reflexivity]].
  intros keyword Hin. simpl in Hin.
  repeat (destruct Hin as [<-|Hin]; [vm_compute; congruence|]). contradiction.
Qed.

(** C6, as the code has it: every text in which [inserted_at] occurs, in
    any case of letters, is rejected, and the error names the keyword
    [insert], which the identifier contains. *)
Theorem inserted_at_blocked (query : string) :
  containsIgnoringCase query "inserted_at" ->
  validateReadOnlyQuery query
  = Throw (JsError "Query contains forbidden keyword: insert. Only SELECT statements are allowed.").
Proof.
  intros (pre & mid & post & Hq & Hm).
  assert (Hc : containsIgnoringCase query "insert").
  { change "inserted_at" with ("insert" ++ "ed_at") in Hm.
    apply map_app_inv in Hm as (m1 & m2 & -> & H1 & _).
    exists pre, m1, (m2 ++ post). split; [|exact H1].
    now rewrite Hq, !app_assoc. }
  assert (Hi := contains_includes query "insert" (or_introl eq_refl) Hc).
  unfold validateReadOnlyQuery. cbn [forbiddenKeywords find].
  now rewrite Hi.
Qed.

Lemma inserted_at_blocked_witness :
  validateReadOnlyQuery "select Inserted_At from orders"
  = Throw (JsError "Query contains forbidden keyword: insert. Only SELECT statements are allowed.").
Proof.
  apply inserted_at_blocked.
  exists "select ", "Inserted_At", " from orders". split; reflexivity.
Defined.

End Gatekeeper.

(** * The row limit: [addRowLimit] *)

Section RowLimit.
Import QueryExecutor JsFacts.

Lemma canonicalize_toLowerChar (c : ascii) :
  ((97 <=? Js.code (Js.toLowerChar c)) && (Js.code (Js.toLowerChar c) <=? 122))%nat = true ->
  Js.canonicalize c = Js.canonicalize (Js.toLowerChar c).
Proof.
  destruct c as [[] [] [] [] [] [] [] []]; vm_compute;
    intros H; first [reflexivity | discriminate H].
Qed.

Lemma toLowerChar_space (c : ascii) :
  Js.toLowerChar c = " "%char -> c = " "%char.
Proof.
  destruct c as [[] [] [] [] [] [] [] []]; vm_compute;
    intros H; first [reflexivity | discriminate H].
Qed.

(** When the normalized text starts with [select ], the regular expression
    of [addRowLimit] matches: it takes the leading white space, the keyword
    in the case it was typed in, and all the white space behind it. *)
Lemma matchLeadingSelect_normalized (query : string) :
  Js.startsWith (Js.toLowerCase (Js.trim query)) "select " = true ->
  exists lead kw gap rest,
    query = lead ++ kw ++ gap ++ rest
    /\ Js.forallb Js.isWhiteSpace lead = true
    /\ Js.toLowerCase kw = "select"
    /\ gap <> ""
    /\ Js.forallb Js.isWhiteSpace gap = true
    /\ Js.trimStart rest = rest
    /\ Js.matchLeadingSelect query = Some (lead ++ kw ++ gap, rest).
Proof.
  intros H. apply startsWith_spec in H as [r H].
  unfold Js.trim, Js.trimStart in H.
  unfold Js.matchLeadingSelect.
  pose proof (takeWhile_dropWhile Js.isWhiteSpace query) as Hq.
  pose proof (forallb_takeWhile Js.isWhiteSpace query) as Hlead.
  remember (Js.takeWhile Js.isWhiteSpace query) as lead eqn:El.
  remember (Js.dropWhile Js.isWhiteSpace query) as s1 eqn:E1.
  destruct (trimEnd_prefix s1) as [tail Ht].
  assert (Hl : Js.toLowerCase s1 = "select " ++ (r ++ Js.toLowerCase tail)).
  { rewrite Ht at 1. unfold Js.toLowerCase in *. rewrite map_app, H.
    now rewrite app_assoc. }
  clear H Ht.
  destruct s1 as [|c1 [|c2 [|c3 [|c4 [|c5 [|c6 [|c7 s2]]]]]]];
    try discriminate Hl.
  cbn in Hl.
  injection Hl as H1 H2 H3 H4 H5 H6 H7 _.
  apply toLowerChar_space in H7. subst c7.
  cbn [Js.take Js.drop Js.map Js.takeWhile].
  rewrite (canonicalize_toLowerChar c1), (canonicalize_toLowerChar c2),
    (canonicalize_toLowerChar c3), (canonicalize_toLowerChar c4),
    (canonicalize_toLowerChar c5), (canonicalize_toLowerChar c6)
    by (rewrite ?H1, ?H2, ?H3, ?H4, ?H5, ?H6; reflexivity).
  rewrite H1, H2, H3, H4, H5, H6.
  change (Js.isWhiteSpace " ") with true. cbn iota.
  change (Js.dropWhile Js.isWhiteSpace (String " " s2))
    with (Js.dropWhile Js.isWhiteSpace s2).
  exists lead,
    (String c1 (String c2 (String c3 (String c4 (String c5 (String c6 "")))))),
    (String " " (Js.takeWhile Js.isWhiteSpace s2)),
    (Js.dropWhile Js.isWhiteSpace s2).
  repeat split.
  - rewrite Hq at 1. cbn [append]. now rewrite <- takeWhile_dropWhile.
  - exact Hlead.
  - cbn. now rewrite H1, H2, H3, H4, H5, H6.
  - discriminate.
  - cbn [Js.forallb]. now rewrite forallb_takeWhile.
  - apply dropWhile_fixed.
Qed.

(** [executeQuery] sends one text for an allowed query: the result of
    [addRowLimit] at the clamped limit. *)
Lemma executeQuery_sends (Row : Type) server clock query options w :
  validateReadOnlyQuery query = Ok tt -> pool w = true ->
  issued (snd (executeQuery Row server clock query options w))
  = (issued w ++ [addRowLimit query (effectiveMaxRows options)])%list.
Proof.
  intros Hv Hp.
  unfold executeQuery, bind, lift, tryCatch, dateNow, getPool, requestQuery,
    throw, ret.
  rewrite Hv. cbn. rewrite Hp. cbn.
  destruct (server (issued w) _); reflexivity.
Qed.

Lemma dropWhile_length p (s : string) :
  String.length (Js.dropWhile p s) <= String.length s.
Proof.
  induction s as [|c s IH]; cbn [Js.dropWhile String.length]; [lia|].
  destruct (p c); cbn [String.length]; lia.
Qed.

(** A text that [dropWhile] leaves alone is empty or starts outside [p]. *)
Lemma dropWhile_fixed_head p (b : string) :
  Js.dropWhile p b = b -> Js.takeWhile p b = "".
Proof.
  destruct b as [|c t]; [reflexivity|]. cbn [Js.dropWhile Js.takeWhile].
  destruct (p c); [|reflexivity].
  intros H. apply (f_equal String.length) in H. cbn [String.length] in H.
  pose proof (dropWhile_length p t). lia.
Qed.

Lemma span_app p (a b : string) :
  Js.forallb p a = true -> Js.dropWhile p b = b ->
  Js.takeWhile p (a ++ b) = a /\ Js.dropWhile p (a ++ b) = b.
Proof.
  intros Ha Hb. induction a as [|x a IH]; cbn [append].
  - split; [now apply dropWhile_fixed_head | exact Hb].
  - cbn [Js.forallb] in Ha. apply andb_prop in Ha as [Hx Ha].
    cbn [Js.takeWhile Js.dropWhile]. rewrite Hx.
    destruct (IH Ha) as [-> ->]. now split.
Qed.

(** However a text is cut into leading white space, the keyword, a run of
    white space and a rest that starts outside white space, the regular
    expression of [addRowLimit] matches the first three pieces. *)
Lemma matchLeadingSelect_of_shape (lead kw gap rest : string) :
  Js.forallb Js.isWhiteSpace lead = true -> Js.toLowerCase kw = "select" ->
  gap <> "" -> Js.forallb Js.isWhiteSpace gap = true ->
  Js.trimStart rest = rest ->
  Js.matchLeadingSelect (lead ++ kw ++ gap ++ rest)
  = Some (lead ++ kw ++ gap, rest).
Proof.
  intros Hl Hk Hg Hgw Hr.
  destruct kw as [|c1 [|c2 [|c3 [|c4 [|c5 [|c6 [|c7 kw]]]]]]];
    try discriminate Hk.
  cbn in Hk. injection Hk as H1 H2 H3 H4 H5 H6.
  assert (Hc1 : Js.isWhiteSpace c1 = false)
    by (rewrite <- isWhiteSpace_toLowerChar, H1; reflexivity).
  unfold Js.matchLeadingSelect. cbn [append].
  destruct (span_app Js.isWhiteSpace lead
              (String c1 (String c2 (String c3 (String c4 (String c5
                 (String c6 (gap ++ rest))))))) Hl) as [-> ->];
    [cbn [Js.dropWhile]; now rewrite Hc1|].
  cbn [Js.take Js.drop Js.map].
  rewrite (canonicalize_toLowerChar c1), (canonicalize_toLowerChar c2),
    (canonicalize_toLowerChar c3), (canonicalize_toLowerChar c4),
    (canonicalize_toLowerChar c5), (canonicalize_toLowerChar c6)
    by (rewrite ?H1, ?H2, ?H3, ?H4, ?H5, ?H6; reflexivity).
  rewrite H1, H2, H3, H4, H5, H6.
  destruct (span_app Js.isWhiteSpace gap rest Hgw Hr) as [-> ->].
  apply eqb_neq in Hg. rewrite Hg. reflexivity.
Qed.


(** The example of the specification. *)
Example addRowLimit_example :
  validateReadOnlyQuery "SELECT col FROM t" = Ok tt
  /\ addRowLimit "SELECT col FROM t" (effectiveMaxRows (mkOptions (Some 50%Z) None))
     = "SELECT TOP 50 col FROM t"
  /\ addRowLimit "SELECT TOP 5 col FROM t" (effectiveMaxRows (mkOptions (Some 50%Z) None))
     = "SELECT TOP 5 col FROM t"
  /\ addRowLimit "SELECT col FROM t" (effectiveMaxRows (mkOptions (Some 5000%Z) None))
     = "SELECT TOP 1000 col FROM t".
Proof. repeat split. Qed.


End RowLimit.

(** * Timing and session switches: [executeQuery], [explainQuery],
      [getQueryStatistics] *)

Section Executor.
Import QueryExecutor.

Variable Row : Type.
Variable server : list string -> string -> Result (QueryReply Row).
Variable clock : nat -> Z.


(** C10: whenever [getQueryStatistics] succeeds, the three counters are 0
    and [elapsedTime] is the difference of the two clock readings taken
    around the query. *)
Theorem statistics_counters_zero (query : string) w stats w' :
  getQueryStatistics Row server clock query w = (Ok stats, w') ->
  logicalReads stats = 0%Z /\ physicalReads stats = 0%Z /\ cpuTime stats = 0%Z
  /\ elapsedTime stats
     = (clock (S (clockReads w)) - clock (clockReads w))%Z.
Proof.
  unfold getQueryStatistics, bind, lift, tryCatch, dateNow, getPool,
    requestQuery, throw, ret.
  destruct (validateReadOnlyQuery query) as [[]|]; [|discriminate].
  destruct (pool w); [|discriminate].
  repeat match goal with
         | |- context [match server ?l ?q with _ => _ end] =>
             destruct (server l q); cbn [issued session pool clockReads]
         end;
    intros H; try discriminate H;
    injection H as <- _; repeat split.
Qed.

(** The failure path of [explainQuery], for any server: once the ON
    statement went through and the query step fails, the method throws from
    its [catch] with the server's switch still on and nothing else sent. *)
Lemma explainQuery_failure_path (query : string) w reply e :
  validateReadOnlyQuery query = Ok tt -> pool w = true ->
  server (issued w) "SET SHOWPLAN_ALL ON" = Ok reply ->
  server (issued w ++ ["SET SHOWPLAN_ALL ON"])%list query = Throw e ->
  explainQuery Row server query w
  = (Throw (JsError ("Failed to get query execution plan: " ++ messageOf e)),
     mkWorld true
       (mkSession true (statistics_io (session w)) (statistics_time (session w)))
       (issued w ++ ["SET SHOWPLAN_ALL ON"; query]) (clockReads w)).
Proof.
  intros Hv Hp Hon Hq. destruct w as [p ses sent0 k]. cbn in *. subst p.
  unfold explainQuery, bind, lift, tryCatch, getPool, requestQuery, throw, ret.
  rewrite Hv. cbn. rewrite Hon. cbn. rewrite Hq. cbn.
  now rewrite <- List.app_assoc.
Qed.

(** The failure path of [getQueryStatistics], likewise. *)
Lemma getQueryStatistics_failure_path (query : string) w r1 r2 e :
  validateReadOnlyQuery query = Ok tt -> pool w = true ->
  server (issued w) "SET STATISTICS IO ON" = Ok r1 ->
  server (issued w ++ ["SET STATISTICS IO ON"])%list "SET STATISTICS TIME ON"
    = Ok r2 ->
  server (issued w ++ ["SET STATISTICS IO ON"; "SET STATISTICS TIME ON"])%list
    query = Throw e ->
  getQueryStatistics Row server clock query w
  = (Throw (JsError ("Failed to get query statistics: " ++ messageOf e)),
     mkWorld true (mkSession (showplan_all (session w)) true true)
       (issued w ++ ["SET STATISTICS IO ON"; "SET STATISTICS TIME ON"; query])
       (S (clockReads w))).
Proof.
  intros Hv Hp H1 H2 Hq. destruct w as [p ses sent0 k]. cbn in *. subst p.
  unfold getQueryStatistics, bind, lift, tryCatch, getPool, requestQuery,
    dateNow, throw, ret.
  rewrite Hv. cbn. rewrite H1. cbn. rewrite H2. cbn.
  rewrite <- !List.app_assoc. cbn. rewrite Hq. reflexivity.
Qed.

End Executor.

Section ExecutorInstances.
Import QueryExecutor.



Lemma statistics_counters_zero_witness :
  exists stats w',
    getQueryStatistics unit Scenario.okServer Scenario.tick "SELECT col FROM t"
      Scenario.idle = (Ok stats, w')
    /\ logicalReads stats = 0%Z /\ physicalReads stats = 0%Z
    /\ cpuTime stats = 0%Z /\ elapsedTime stats = 7%Z.
Proof.
  eexists; eexists; split; [reflexivity|].
  exact (statistics_counters_zero unit Scenario.okServer Scenario.tick
           "SELECT col FROM t" Scenario.idle _ _ eq_refl).
Defined.

(** C5, at a failing query: when the server settles the query itself with an
    error (a lost connection, a time-out), [explainQuery] leaves
    [SHOWPLAN_ALL] on and [getQueryStatistics] leaves [STATISTICS IO] and
    [STATISTICS TIME] on, although all three were off before the call; the
    OFF statements are sent on the success path only. *)
Theorem session_left_toggled :
  (let (r, w') := explainQuery unit Scenario.dropServer "SELECT 1" Scenario.idle in
   r = Throw (JsError "Failed to get query execution plan: Connection lost")
   /\ issued w' = ["SET SHOWPLAN_ALL ON"; "SELECT 1"]
   /\ showplan_all (session Scenario.idle) = false
   /\ showplan_all (session w') = true)
  /\ (let (r, w') := getQueryStatistics unit Scenario.slowServer Scenario.tick
                       "SELECT 1" Scenario.idle in
      r = Throw (JsError "Failed to get query statistics: Timeout: Request failed to complete in 30000ms")
      /\ issued w' = ["SET STATISTICS IO ON"; "SET STATISTICS TIME ON"; "SELECT 1"]
      /\ session Scenario.idle = mkSession false false false
      /\ session w' = mkSession false true true)
  /\ (let (r, w') := explainQuery unit Scenario.okServer "SELECT 1" Scenario.idle in
      issued w' = ["SET SHOWPLAN_ALL ON"; "SELECT 1"; "SET SHOWPLAN_ALL OFF"]
      /\ session w' = session Scenario.idle).
Proof. vm_compute. repeat split. Qed.

End ExecutorInstances.

(** * Schema discovery: [getTableSchema] *)

Section Schema.
Import SchemaDiscovery.

Variable catalog : Catalog.

Ltac run :=
  unfold getTableSchema, getTableColumns, getTableIndexes, getTableForeignKeys,
    getPool, send, bind, tryCatch, throw, ret;
  cbn [connected sent].

(** C7: when the existence statement returns no row, [getTableSchema] throws
    the not-found error and has sent that one statement only. *)
Theorem not_found_short_circuit (schemaName tableName : string) w :
  connected w = true ->
  tableInfoRows catalog schemaName tableName = Ok [] ->
  getTableSchema catalog schemaName tableName w
  = (Throw (notFoundError schemaName tableName),
     mkConn true (sent w ++ [TableInfoQuery schemaName tableName])).
Proof.
  intros Hc Ht. destruct w as [c sent0]. cbn in Hc. subst c.
  run. rewrite Ht. reflexivity.
Qed.

(** C8: for a base table whose count statement fails, [getTableSchema] still
    returns the schema, with [rowCount] unset and the columns, indexes and
    foreign keys of the three catalog statements; for a view the count
    statement is not sent and [rowCount] stays unset. *)
Theorem row_count_supplementary (schemaName tableName : string) w row0 others :
  connected w = true ->
  tableInfoRows catalog schemaName tableName = Ok (row0 :: others) ->
  (row_type row0 = "USER_TABLE" ->
   forall e cols ixs fks,
     rowCountRows catalog schemaName tableName = Throw e ->
     columnRows catalog schemaName tableName = Ok cols ->
     indexRows catalog schemaName tableName = Ok ixs ->
     foreignKeyRows catalog schemaName tableName = Ok fks ->
     getTableSchema catalog schemaName tableName w
     = (Ok (mkTableSchema
              (mkTableInfo (row_schema row0) (row_name row0) "USER_TABLE" None)
              (List.map columnOfRow cols) (List.map indexOfRow ixs)
              (List.map foreignKeyOfRow fks)),
        mkConn true (sent w ++ [TableInfoQuery schemaName tableName;
                                RowCountQuery schemaName tableName;
                                ColumnsQuery schemaName tableName;
                                IndexesQuery schemaName tableName;
                                ForeignKeysQuery schemaName tableName])))
  /\ (row_type row0 = "VIEW" ->
      (exists new,
         sent (snd (getTableSchema catalog schemaName tableName w))
         = (sent w ++ new)%list
         /\ List.forallb (fun st => negb (isRowCountQuery st)) new = true)
      /\ forall ts,
           fst (getTableSchema catalog schemaName tableName w) = Ok ts ->
           rowCount (table ts) = None).
Proof.
  intros Hc Ht. destruct w as [c sent0]. cbn in Hc. subst c. split.
  - intros Hty e cols ixs fks Hn Hcol Hix Hfk.
    run. rewrite Ht. cbn. rewrite Hty. cbn.
    rewrite Hn. cbn. rewrite Hcol. cbn. rewrite Hix. cbn. rewrite Hfk. cbn.
    now rewrite <- !List.app_assoc.
  - intros Hty. run. rewrite Ht. cbn. rewrite Hty. cbn.
    destruct (columnRows catalog schemaName tableName) as [cols|]; cbn;
      [destruct (indexRows catalog schemaName tableName) as [ixs|]; cbn;
       [destruct (foreignKeyRows catalog schemaName tableName) as [fks|]; cbn
       |]|];
      rewrite <- ?List.app_assoc; cbn [List.app];
      (split; [eexists; split; [reflexivity | reflexivity]
              | intros ts H; try discriminate H; injection H as <-; reflexivity]).
Qed.

(** What a returned schema is made of: the rows of the three facet
    statements. *)
Lemma returned_schema_rows (schemaName tableName : string) w ts w' :
  getTableSchema catalog schemaName tableName w = (Ok ts, w') ->
  exists cols ixs fks,
    columnRows catalog schemaName tableName = Ok cols
    /\ indexRows catalog schemaName tableName = Ok ixs
    /\ foreignKeyRows catalog schemaName tableName = Ok fks
    /\ columns ts = List.map columnOfRow cols
    /\ indexes ts = List.map indexOfRow ixs
    /\ foreignKeys ts = List.map foreignKeyOfRow fks.
Proof.
  destruct w as [[] sent0]; run; [|discriminate].
  destruct (tableInfoRows catalog schemaName tableName) as [[|row0 others]|];
    try discriminate.
  cbn.
  destruct (row_type row0 =? "USER_TABLE");
    [destruct (rowCountRows catalog schemaName tableName) as [[|n ns]|]|];
    cbn;
    (destruct (columnRows catalog schemaName tableName) as [cols|];
       [|discriminate]);
    cbn;
    (destruct (indexRows catalog schemaName tableName) as [ixs|];
       [|discriminate]);
    cbn;
    (destruct (foreignKeyRows catalog schemaName tableName) as [fks|];
       [|discriminate]);
    cbn; intros H; injection H as <- _;
    exists cols, ixs, fks; repeat split.
Qed.

(** C1, as the code has it: [getTableSchema] checks nothing across the three
    lists.  For an existing table, whenever the column, index and
    foreign-key statements deliver rows, whatever these rows name, the call
    returns a schema, and this schema carries the columns, the indexes
    (their aggregates split on [, ]) and the foreign keys exactly as
    delivered, none dropped and none repaired. *)
Theorem schema_as_delivered (schemaName tableName : string) w
    row0 others cols ixs fks :
  connected w = true ->
  tableInfoRows catalog schemaName tableName = Ok (row0 :: others) ->
  columnRows catalog schemaName tableName = Ok cols ->
  indexRows catalog schemaName tableName = Ok ixs ->
  foreignKeyRows catalog schemaName tableName = Ok fks ->
  exists ts w',
    getTableSchema catalog schemaName tableName w = (Ok ts, w')
    /\ columns ts = List.map columnOfRow cols
    /\ indexes ts = List.map indexOfRow ixs
    /\ foreignKeys ts = List.map foreignKeyOfRow fks.
Proof.
  intros Hc Ht Hcol Hix Hfk. destruct w as [c sent0]. cbn in Hc. subst c.
  run. rewrite Ht. cbn.
  destruct (row_type row0 =? "USER_TABLE");
    [destruct (rowCountRows catalog schemaName tableName) as [[|n ns]|]|];
    cbn; rewrite Hcol; cbn; rewrite Hix; cbn; rewrite Hfk; cbn;
    eexists; eexists; repeat split.
Qed.

End Schema.

Section SchemaInstances.
Import SchemaDiscovery.

Lemma not_found_short_circuit_witness :
  getTableSchema Scenario.emptyCatalog "dbo" "missing" Scenario.fresh
  = (Throw (JsError "Table dbo.missing not found"),
     mkConn true [TableInfoQuery "dbo" "missing"]).
Proof.
  exact (not_found_short_circuit Scenario.emptyCatalog "dbo" "missing"
           Scenario.fresh eq_refl eq_refl).
Defined.

Lemma row_count_supplementary_witness :
  (exists ts w',
     getTableSchema Scenario.deniedCatalog "dbo" "orders" Scenario.fresh
     = (Ok ts, w')
     /\ rowCount (table ts) = None
     /\ List.length (columns ts) = 1
     /\ In (RowCountQuery "dbo" "orders") (sent w'))
  /\ exists new,
       sent (snd (getTableSchema Scenario.viewCatalog "dbo" "recent"
                    Scenario.fresh)) = new
       /\ List.forallb (fun st => negb (isRowCountQuery st)) new = true.
Proof.
  split.
  - destruct (row_count_supplementary Scenario.deniedCatalog "dbo" "orders"
                Scenario.fresh _ _ eq_refl eq_refl) as [Htable _].
    eexists; eexists. split.
    + exact (Htable eq_refl _ _ _ _ eq_refl eq_refl eq_refl eq_refl).
    + cbn. tauto.
  - destruct (row_count_supplementary Scenario.viewCatalog "dbo" "recent"
                Scenario.fresh _ _ eq_refl eq_refl) as [_ Hview].
    destruct (Hview eq_refl) as [(new & Hs & Hn) _].
    exists new. split; [exact Hs | exact Hn].
Defined.

(** The catalog rows of [Scenario.ghostCatalog] name the columns [ghost] and
    [phantom], which the column rows do not have; [getTableSchema] returns
    the schema all the same. *)
Lemma inconsistent_schema_returned :
  exists ts w',
    getTableSchema Scenario.ghostCatalog "dbo" "orders" Scenario.fresh
    = (Ok ts, w')
    /\ List.map col_name (columns ts) = ["id"]
    /\ List.map idx_columns (indexes ts) = [["id"; "ghost"]]
    /\ List.map column (foreignKeys ts) = ["phantom"]
    /\ consistent ts = false.
Proof. eexists; eexists; split; [lazy; reflexivity|]. repeat split. Qed.

Lemma schema_as_delivered_witness :
  exists ts w',
    getTableSchema Scenario.ghostCatalog "dbo" "orders" Scenario.fresh
    = (Ok ts, w')
    /\ columns ts = [mkColumnInfo "id" "int" None false true false None None]
    /\ indexes ts = [mkIndexInfo "IX_orders" ["id"; "ghost"] false false]
    /\ foreignKeys ts
       = [mkForeignKeyInfo "FK_orders" "phantom" "customers" "id" "dbo"].
Proof.
  exact (schema_as_delivered Scenario.ghostCatalog "dbo" "orders" Scenario.fresh
           (mkTableRow "dbo" "orders" "USER_TABLE") []
           [Scenario.idColumn]
           [mkIndexRow "IX_orders" "id, ghost" false false]
           [mkForeignKeyRow "FK_orders" "phantom" "dbo" "customers" "id"]
           eq_refl eq_refl eq_refl eq_refl eq_refl).
Defined.

End SchemaInstances.

(** * Further properties of the gatekeeper *)

Section GatekeeperMore.
Import QueryExecutor JsFacts.

(** An accepted text has one of the two first words and none of the
    keywords. *)
Lemma accepted_elim (query : string) :
  validateReadOnlyQuery query = Ok tt ->
  (firstWord query = "select" \/ firstWord query = "with")
  /\ forall keyword, In keyword forbiddenKeywords ->
                     ~ containsIgnoringCase query keyword.
Proof.
  unfold validateReadOnlyQuery.
  destruct (find _ forbiddenKeywords) as [named|] eqn:F; [discriminate|].
  destruct (eqb_spec (firstWord query) "select") as [Hs|Hs];
    destruct (eqb_spec (firstWord query) "with") as [Hw|Hw];
    cbn; intros H; try discriminate H; (split; [tauto|]);
    intros keyword Hin Hc;
    pose proof (find_none _ _ F keyword Hin) as Hf; cbv beta in Hf;
    rewrite (contains_includes _ _ Hin Hc) in Hf; discriminate.
Qed.

(** A text with one of the two first words and none of the keywords is
    accepted. *)
Lemma accepted_intro (query : string) :
  firstWord query = "select" \/ firstWord query = "with" ->
  (forall keyword, In keyword forbiddenKeywords ->
                   ~ containsIgnoringCase query keyword) ->
  validateReadOnlyQuery query = Ok tt.
Proof.
  intros Hfw Hno. unfold validateReadOnlyQuery.
  destruct (find _ forbiddenKeywords) as [named|] eqn:F.
  - apply find_some in F as [Hin Hinc].
    exfalso. apply (Hno named Hin). now apply includes_contains.
  - destruct Hfw as [-> | ->]; reflexivity.
Qed.

(** X1.  The two rules are the only ones: a text is accepted exactly when its
    first word is [select] or [with] and no denylisted keyword occurs in it
    in any case of letters. *)
Theorem accepted_iff (query : string) :
  validateReadOnlyQuery query = Ok tt
  <-> ((firstWord query = "select" \/ firstWord query = "with")
       /\ forall keyword, In keyword forbiddenKeywords ->
                          ~ containsIgnoringCase query keyword).
Proof.
  split.
  - apply accepted_elim.
  - intros [Hfw Hno]. now apply accepted_intro.
Qed.

Lemma toLowerChar_idempotent (c : ascii) :
  Js.toLowerChar (Js.toLowerChar c) = Js.toLowerChar c.
Proof. destruct c as [[] [] [] [] [] [] [] []]; reflexivity. Qed.

Lemma toLowerCase_idempotent (s : string) :
  Js.toLowerCase (Js.toLowerCase s) = Js.toLowerCase s.
Proof.
  unfold Js.toLowerCase. induction s as [|c s IH]; cbn [Js.map];
    [reflexivity | now rewrite toLowerChar_idempotent, IH].
Qed.

Lemma map_empty f (s : string) : (Js.map f s =? "") = (s =? "").
Proof. destruct s; reflexivity. Qed.

Lemma trimStart_toLowerCase (s : string) :
  Js.trimStart (Js.toLowerCase s) = Js.toLowerCase (Js.trimStart s).
Proof.
  unfold Js.trimStart, Js.toLowerCase.
  induction s as [|c s IH]; cbn [Js.map Js.dropWhile]; [reflexivity|].
  rewrite isWhiteSpace_toLowerChar.
  destruct (Js.isWhiteSpace c); [exact IH | reflexivity].
Qed.

Lemma trimEnd_toLowerCase (s : string) :
  Js.trimEnd (Js.toLowerCase s) = Js.toLowerCase (Js.trimEnd s).
Proof.
  unfold Js.toLowerCase.
  induction s as [|c s IH]; cbn [Js.map Js.trimEnd]; [reflexivity|].
  rewrite isWhiteSpace_toLowerChar, IH, map_empty.
  destruct (Js.isWhiteSpace c && (Js.trimEnd s =? "")); reflexivity.
Qed.

(** [trim] and [toLowerCase] commute. *)
Lemma trim_toLowerCase (s : string) :
  Js.trim (Js.toLowerCase s) = Js.toLowerCase (Js.trim s).
Proof.
  unfold Js.trim. now rewrite trimStart_toLowerCase, trimEnd_toLowerCase.
Qed.

(** X2.  The verdict does not depend on the case of letters: two texts with
    the same lowercase form get the same verdict, with the same error. *)
Theorem verdict_ignores_case (q1 q2 : string) :
  Js.toLowerCase q1 = Js.toLowerCase q2 ->
  validateReadOnlyQuery q1 = validateReadOnlyQuery q2.
Proof.
  intros H.
  assert (Hn : Js.toLowerCase (Js.trim q1) = Js.toLowerCase (Js.trim q2))
    by now rewrite <- !trim_toLowerCase, H.
  unfold validateReadOnlyQuery, firstWord. now rewrite Hn.
Qed.

Lemma verdict_ignores_case_witness :
  validateReadOnlyQuery "Select Name From dbo.Users"
  = validateReadOnlyQuery "SELECT NAME FROM DBO.USERS".
Proof. apply verdict_ignores_case. reflexivity. Defined.

Lemma stripLineComments_plain (s : string) :
  Js.includes s "--" = false -> Js.stripLineComments false s = s.
Proof.
  induction s as [|c s IH]; [reflexivity|].
  cbn [Js.includes Js.stripLineComments].
  destruct (Js.startsWith (String c s) "--"); [discriminate|].
  intros H. now rewrite IH.
Qed.

Lemma stripBlockComments_step (c : ascii) (t : string) :
  Js.startsWith (String c t) "/*" = false ->
  Js.stripBlockComments false (String c t)
  = String c (Js.stripBlockComments false t).
Proof.
  destruct c as [[] [] [] [] [] [] [] []]; try reflexivity.
  destruct t as [|c2 t]; [reflexivity|].
  destruct c2 as [[] [] [] [] [] [] [] []]; try reflexivity.
  cbn. destruct t; discriminate.
Qed.

Lemma stripBlockComments_plain (s : string) :
  Js.includes s "/*" = false -> Js.stripBlockComments false s = s.
Proof.
  induction s as [|c s IH]; [reflexivity|].
  cbn [Js.includes].
  destruct (Js.startsWith (String c s) "/*") eqn:E; [discriminate|].
  intros H. rewrite stripBlockComments_step by exact E. now rewrite IH.
Qed.

(** X3.  [removeComments] changes nothing in a text that includes neither
    [--] nor [/*]. *)
Theorem removeComments_plain (s : string) :
  Js.includes s "--" = false -> Js.includes s "/*" = false ->
  removeComments s = s.
Proof.
  intros H1 H2. unfold removeComments.
  rewrite stripLineComments_plain by exact H1.
  now apply stripBlockComments_plain.
Qed.

Lemma removeComments_plain_witness :
  removeComments "select a - b, c / d * e from t"
  = "select a - b, c / d * e from t".
Proof. apply removeComments_plain; reflexivity. Defined.

End GatekeeperMore.

(** * Further properties of the row limit *)

Section RowLimitMore.
Import QueryExecutor JsFacts JsNumber.

(** Both sides of an equation between concatenations, nested to the right. *)
Ltac app_norm := repeat first [rewrite app_assoc | progress cbn [append]].

Lemma string_of_uint_chars (d : Decimal.uint) :
  Js.forallb isSignOrDigit (NilEmpty.string_of_uint d) = true.
Proof. induction d; cbn [NilEmpty.string_of_uint Js.forallb]; auto. Qed.

Lemma showInt_chars (n : Z) : Js.forallb isSignOrDigit (Js.showInt n) = true.
Proof.
  unfold Js.showInt, NilZero.string_of_int, NilZero.string_of_uint.
  destruct (Z.to_int n) as [d|d];
    (destruct d eqn:E; [reflexivity | rewrite <- E ..]);
    cbn [Js.forallb]; rewrite ?string_of_uint_chars; reflexivity.
Qed.

Lemma showInt_head (n : Z) :
  exists d rest, Js.showInt n = String d rest /\ Js.isWhiteSpace d = false.
Proof.
  pose proof (showInt_chars n) as H.
  assert (Hne : Js.showInt n <> "").
  { unfold Js.showInt, NilZero.string_of_int, NilZero.string_of_uint.
    destruct (Z.to_int n) as [[]|[]]; discriminate. }
  destruct (Js.showInt n) as [|d rest]; [contradiction|].
  exists d, rest. split; [reflexivity|].
  cbn [Js.forallb] in H. apply andb_prop in H as [H _].
  destruct d as [[] [] [] [] [] [] [] []]; first [reflexivity | discriminate H].
Qed.

Lemma isSignOrDigit_toLowerChar (c : ascii) :
  isSignOrDigit (Js.toLowerChar c) = isSignOrDigit c.
Proof. destruct c as [[] [] [] [] [] [] [] []]; reflexivity. Qed.

(** The shape of a text whose normalized form starts with [select ], and
    the match of the regular expression on it. *)
Lemma leading_select_shape (query : string) :
  Js.startsWith (Js.toLowerCase (Js.trim query)) "select " = true ->
  exists lead kw gap rest,
    query = lead ++ kw ++ String " " (gap ++ rest)
    /\ Js.forallb Js.isWhiteSpace lead = true
    /\ Js.toLowerCase kw = "select"
    /\ Js.forallb Js.isWhiteSpace gap = true
    /\ Js.matchLeadingSelect query = Some (lead ++ kw ++ String " " gap, rest).
Proof.
  intros H. apply startsWith_spec in H as [r H].
  unfold Js.trim, Js.trimStart in H.
  unfold Js.matchLeadingSelect.
  pose proof (takeWhile_dropWhile Js.isWhiteSpace query) as Hq.
  pose proof (forallb_takeWhile Js.isWhiteSpace query) as Hlead.
  remember (Js.takeWhile Js.isWhiteSpace query) as lead eqn:El.
  remember (Js.dropWhile Js.isWhiteSpace query) as s1 eqn:E1.
  destruct (trimEnd_prefix s1) as [tail Ht].
  assert (Hl : Js.toLowerCase s1 = "select " ++ (r ++ Js.toLowerCase tail)).
  { rewrite Ht at 1. unfold Js.toLowerCase in *. rewrite map_app, H.
    now rewrite app_assoc. }
  clear H Ht.
  destruct s1 as [|c1 [|c2 [|c3 [|c4 [|c5 [|c6 [|c7 s2]]]]]]];
    try discriminate Hl.
  cbn in Hl.
  injection Hl as H1 H2 H3 H4 H5 H6 H7 _.
  apply toLowerChar_space in H7. subst c7.
  cbn [Js.take Js.drop Js.map Js.takeWhile].
  rewrite (canonicalize_toLowerChar c1), (canonicalize_toLowerChar c2),
    (canonicalize_toLowerChar c3), (canonicalize_toLowerChar c4),
    (canonicalize_toLowerChar c5), (canonicalize_toLowerChar c6)
    by (rewrite ?H1, ?H2, ?H3, ?H4, ?H5, ?H6; reflexivity).
  rewrite H1, H2, H3, H4, H5, H6.
  change (Js.isWhiteSpace " ") with true. cbn iota.
  change (Js.dropWhile Js.isWhiteSpace (String " " s2))
    with (Js.dropWhile Js.isWhiteSpace s2).
  exists lead,
    (String c1 (String c2 (String c3 (String c4 (String c5 (String c6 "")))))),
    (Js.takeWhile Js.isWhiteSpace s2),
    (Js.dropWhile Js.isWhiteSpace s2).
  repeat split.
  - rewrite Hq at 1. cbn [append]. now rewrite <- takeWhile_dropWhile.
  - exact Hlead.
  - cbn. now rewrite H1, H2, H3, H4, H5, H6.
  - apply forallb_takeWhile.
Qed.

(** What [addRowLimit] does to a text: nothing whatever the limit, or it
    puts the TOP clause behind the leading [select] and its white space. *)
Lemma addRowLimit_cases (query : string) :
  (forall n, addRowLimit query n = query)
  \/ exists lead kw gap rest,
       query = lead ++ kw ++ String " " (gap ++ rest)
       /\ Js.forallb Js.isWhiteSpace lead = true
       /\ Js.toLowerCase kw = "select"
       /\ Js.forallb Js.isWhiteSpace gap = true
       /\ Js.startsWith (Js.toLowerCase (Js.trim query)) "select " = true
       /\ forall n,
            addRowLimit query n
            = lead ++ kw ++ String " "
                (gap ++ "TOP " ++ Js.showInt n ++ " " ++ rest).
Proof.
  unfold addRowLimit.
  destruct (Js.includes _ "top " || Js.includes _ "top("); [now left|].
  destruct (Js.startsWith _ "select ") eqn:Hs; [|now left].
  destruct (leading_select_shape query Hs)
    as (lead & kw & gap & rest & Hq & Hl & Hk & Hg & Hm).
  right. exists lead, kw, gap, rest. rewrite Hm.
  repeat split; try assumption.
  intros n. rewrite !app_assoc. cbn [append]. now rewrite ?app_assoc.
Qed.

Lemma trimStart_lead (lead : string) (c : ascii) (x : string) :
  Js.forallb Js.isWhiteSpace lead = true -> Js.isWhiteSpace c = false ->
  Js.trimStart (lead ++ String c x) = String c x.
Proof.
  intros Hl Hc. unfold Js.trimStart.
  induction lead as [|y lead IH]; cbn [append Js.dropWhile].
  - now rewrite Hc.
  - cbn [Js.forallb] in Hl. apply andb_prop in Hl as [Hy Hl].
    rewrite Hy. now apply IH.
Qed.

(** The normalized form of a rewritten text starts with [select ] and
    includes [top ]. *)
Lemma rewritten_normalized (lead kw gap rest : string) (n : Z) :
  Js.forallb Js.isWhiteSpace lead = true -> Js.toLowerCase kw = "select" ->
  exists z,
    Js.toLowerCase
      (Js.trim (lead ++ kw ++ String " "
                  (gap ++ "TOP " ++ Js.showInt n ++ " " ++ rest)))
    = "select " ++ Js.toLowerCase gap ++ "top " ++ z.
Proof.
  intros Hl Hk.
  destruct kw as [|c1 [|c2 [|c3 [|c4 [|c5 [|c6 [|c7 kw]]]]]]];
    try discriminate Hk.
  assert (Hc1 : Js.isWhiteSpace c1 = false).
  { cbn in Hk. injection Hk as H1 _.
    rewrite <- isWhiteSpace_toLowerChar, H1. reflexivity. }
  destruct (showInt_head n) as (d & ds & -> & Hd).
  unfold Js.trim. cbn [append].
  rewrite trimStart_lead by assumption.
  set (k6 := String c1 (String c2 (String c3 (String c4 (String c5 (String c6 "")))))) in *.
  assert (E : String c1 (String c2 (String c3 (String c4 (String c5 (String c6
                (String " " (gap ++ String "T" (String "O" (String "P"
                  (String " " (String d (ds ++ String " " rest))))))))))))
              = (k6 ++ String " " (gap ++ "TOP ")) ++ String d (ds ++ String " " rest)).
  { subst k6. cbn [append]. rewrite !app_assoc. reflexivity. }
  rewrite E.
  rewrite trimEnd_app by (rewrite trimEnd_keeps by exact Hd; discriminate).
  rewrite trimEnd_keeps by exact Hd.
  unfold Js.toLowerCase in *. rewrite map_app. cbn [append Js.map].
  rewrite map_app, Hk. cbn [append Js.map].
  change (Js.toLowerChar " ") with " "%char.
  rewrite map_app. cbn.
  eexists. rewrite !app_assoc. cbn [append]. reflexivity.
Qed.

Lemma firstWord_select (query z : string) :
  Js.toLowerCase (Js.trim query) = "select " ++ z ->
  firstWord query = "select".
Proof.
  intros H. unfold firstWord. rewrite H.
  change (removeComments ("select " ++ z)) with ("select " ++ removeComments z).
  change (Js.trim ("select " ++ removeComments z))
    with ("select" ++ (if Js.trimEnd (removeComments z) =? "" then ""
                       else String " " (Js.trimEnd (removeComments z)))).
  destruct (Js.trimEnd (removeComments z) =? ""); reflexivity.
Qed.

Lemma rewritten_includes_top (lead kw gap rest : string) (n : Z) :
  Js.forallb Js.isWhiteSpace lead = true -> Js.toLowerCase kw = "select" ->
  Js.includes
    (Js.toLowerCase
       (Js.trim (lead ++ kw ++ String " "
                   (gap ++ "TOP " ++ Js.showInt n ++ " " ++ rest))))
    "top " = true.
Proof.
  intros Hl Hk. destruct (rewritten_normalized lead kw gap rest n Hl Hk) as [z ->].
  apply includes_spec. exists ("select " ++ Js.toLowerCase gap), z.
  now rewrite !app_assoc.
Qed.

(** X4.  [addRowLimit] never adds a second limit: applied to its own result,
    with whatever limit, it changes nothing. *)
Theorem addRowLimit_idempotent (query : string) (n m : Z) :
  addRowLimit (addRowLimit query n) m = addRowLimit query n.
Proof.
  destruct (addRowLimit_cases query)
    as [E | (lead & kw & gap & rest & Hq & Hl & Hk & Hg & Hs & E)].
  - now rewrite !E.
  - rewrite E. unfold addRowLimit at 1.
    now rewrite rewritten_includes_top.
Qed.

(** A piece without white space that starts a text with a white space in it
    lies before that white space. *)
Lemma piece_prefix (mid post X : string) (c : ascii) (Y : string) :
  Js.noWhiteSpace mid = true -> Js.isWhiteSpace c = true ->
  mid ++ post = X ++ String c Y -> exists post', X = mid ++ post'.
Proof.
  intros Hm Hc. revert X. induction mid as [|m mid IH]; intros X H.
  - now exists X.
  - unfold Js.noWhiteSpace in Hm. cbn [Js.forallb] in Hm.
    apply andb_prop in Hm as [Hm1 Hm2]. apply negb_true_iff in Hm1.
    destruct X as [|x X]; cbn [append] in H; injection H as -> H.
    + congruence.
    + destruct (IH Hm2 X H) as [post' ->]. now exists post'.
Qed.

(** A piece without white space lies on one side of a white space. *)
Lemma piece_split (pre mid post X : string) (c : ascii) (Y : string) :
  Js.noWhiteSpace mid = true -> Js.isWhiteSpace c = true ->
  pre ++ mid ++ post = X ++ String c Y ->
  occursIn mid X \/ occursIn mid Y.
Proof.
  intros Hm Hc. revert X. induction pre as [|p pre IH]; intros X H.
  - destruct (piece_prefix mid post X c Y Hm Hc H) as [post' ->].
    left. now exists "", post'.
  - destruct X as [|x X]; cbn [append] in H; injection H as -> H.
    + right. now exists pre, post.
    + destruct (IH X H) as [(a & b & ->) | R]; [left | now right].
      now exists (String x a), b.
Qed.

(** ... and on one side of a run of white space. *)
Lemma piece_gap (mid X W Y : string) (w : ascii) :
  Js.noWhiteSpace mid = true ->
  Js.forallb Js.isWhiteSpace (String w W) = true ->
  occursIn mid (X ++ String w W ++ Y) -> occursIn mid X \/ occursIn mid Y.
Proof.
  intros Hm. revert X w. induction W as [|w' W IH]; intros X w Hw (pre & post & H);
    cbn [Js.forallb] in Hw; apply andb_prop in Hw as [Hw1 Hw2];
    cbn [append] in H; symmetry in H.
  - exact (piece_split pre mid post X w Y Hm Hw1 H).
  - destruct (piece_split pre mid post X w _ Hm Hw1 H) as [L | R]; [now left|].
    destruct (IH "" w' Hw2 R) as [(a & b & E) | R']; [|now right].
    destruct a; [|discriminate]. destruct mid; [|discriminate].
    right. now exists "", Y.
Qed.

Lemma keywords_not_in_top :
  Forall (fun k => Js.includes "top" k = false
                   /\ Js.forallb isSignOrDigit k = false) forbiddenKeywords.
Proof. repeat constructor. Qed.

(** The TOP clause brings no denylisted keyword in. *)
Lemma rewritten_keyword (lead kw gap rest keyword : string) (n : Z) :
  In keyword forbiddenKeywords ->
  Js.forallb Js.isWhiteSpace gap = true ->
  containsIgnoringCase
    (lead ++ kw ++ String " " (gap ++ "TOP " ++ Js.showInt n ++ " " ++ rest))
    keyword ->
  containsIgnoringCase (lead ++ kw ++ String " " (gap ++ rest)) keyword.
Proof.
  intros Hin Hg (pre & mid & post & Hr & Hm).
  pose proof (proj1 (Forall_forall _ _) keywords_plain _ Hin) as [Hne Hws].
  pose proof (proj1 (Forall_forall _ _) keywords_not_in_top _ Hin) as [Htop Hdig].
  assert (Hmw : Js.noWhiteSpace mid = true).
  { rewrite <- Hm in Hws. unfold Js.toLowerCase in Hws.
    now rewrite <- (noWhiteSpace_toLowerCase mid). }
  assert (Hfrom : forall a b, lead ++ kw ++ String " " (gap ++ rest) = a ++ mid ++ b ->
                  containsIgnoringCase (lead ++ kw ++ String " " (gap ++ rest)) keyword).
  { intros a b E. exists a, mid, b. now split. }
  assert (Hocc : occursIn mid ((lead ++ kw) ++ String " " gap
                               ++ ("TOP" ++ String " " (Js.showInt n ++ String " " rest)))).
  { exists pre, post. rewrite <- Hr. app_norm. reflexivity. }
  apply piece_gap in Hocc; [|exact Hmw | cbn [Js.forallb]; now rewrite Hg].
  destruct Hocc as [(a & b & E) | (a & b & E)].
  - apply (Hfrom a (b ++ String " " (gap ++ rest))).
    transitivity ((lead ++ kw) ++ String " " (gap ++ rest));
      [now rewrite app_assoc | rewrite E; app_norm; reflexivity].
  - symmetry in E. apply piece_split in E; [|exact Hmw | reflexivity].
    destruct E as [(a' & b' & E) | (a' & b' & E)].
    + exfalso.
      assert (Hi : Js.includes "top" keyword = true).
      { apply includes_spec. exists (Js.toLowerCase a'), (Js.toLowerCase b').
        change "top" with (Js.toLowerCase "TOP"). rewrite E.
        unfold Js.toLowerCase in *. now rewrite !map_app, Hm. }
      congruence.
    + symmetry in E. apply piece_split in E; [|exact Hmw | reflexivity].
      destruct E as [(a2 & b2 & E) | (a2 & b2 & E)].
      * exfalso. pose proof (showInt_chars n) as Hn. rewrite E in Hn.
        rewrite !forallb_app in Hn.
        apply andb_prop in Hn as [_ Hn]. apply andb_prop in Hn as [Hn _].
        assert (Hk : Js.forallb isSignOrDigit keyword = true).
        { rewrite <- Hm. clear - Hn. unfold Js.toLowerCase.
          induction mid as [|c mid IH]; [reflexivity|].
          cbn [Js.map Js.forallb] in *. apply andb_prop in Hn as [H1 H2].
          now rewrite isSignOrDigit_toLowerChar, H1, IH. }
        congruence.
      * apply (Hfrom (lead ++ kw ++ String " " (gap ++ a2)) b2).
        rewrite E. app_norm. reflexivity.
Qed.

(** The rewrite keeps a text acceptable: the result of [addRowLimit] on an
    accepted text is accepted by [validateReadOnlyQuery] again. *)
Lemma addRowLimit_accepted (query : string) (n : Z) :
  validateReadOnlyQuery query = Ok tt ->
  validateReadOnlyQuery (addRowLimit query n) = Ok tt.
Proof.
  intros Hv.
  destruct (addRowLimit_cases query)
    as [E | (lead & kw & gap & rest & Hq & Hl & Hk & Hg & Hs & E)].
  - now rewrite E.
  - rewrite E. apply accepted_elim in Hv as [_ Hno]. apply accepted_intro.
    + left. destruct (rewritten_normalized lead kw gap rest n Hl Hk) as [z Hz].
      eapply firstWord_select. exact Hz.
    + intros keyword Hin Hc. apply (Hno keyword Hin).
      rewrite Hq. now apply (rewritten_keyword lead kw gap rest keyword n).
Qed.

Example addRowLimit_accepted_sample :
  validateReadOnlyQuery (addRowLimit "  select  name from users" 25) = Ok tt.
Proof. apply addRowLimit_accepted. reflexivity. Qed.



(** X6.  Without [maxRows], or with [maxRows] 0, the limit is 1000: for an
    accepted text whose normalized form includes neither [top ] nor [top(]
    and starts with [select ], however the text is cut into leading white
    space, the keyword, the run of white space behind it and a rest that
    starts outside white space, the one text sent is these pieces with
    [TOP 1000 ] put in between the white space and the rest. *)
Theorem default_limit (Row : Type) server clock query options w :
  maxRows options = None \/ maxRows options = Some 0%Z ->
  validateReadOnlyQuery query = Ok tt -> pool w = true ->
  let normalizedQuery := Js.toLowerCase (Js.trim query) in
  Js.includes normalizedQuery "top " = false ->
  Js.includes normalizedQuery "top(" = false ->
  Js.startsWith normalizedQuery "select " = true ->
  (exists lead kw gap rest,
     query = lead ++ kw ++ gap ++ rest
     /\ Js.forallb Js.isWhiteSpace lead = true
     /\ Js.toLowerCase kw = "select"
     /\ gap <> "" /\ Js.forallb Js.isWhiteSpace gap = true
     /\ Js.trimStart rest = rest)
  /\ forall lead kw gap rest,
       query = lead ++ kw ++ gap ++ rest ->
       Js.forallb Js.isWhiteSpace lead = true ->
       Js.toLowerCase kw = "select" ->
       gap <> "" -> Js.forallb Js.isWhiteSpace gap = true ->
       Js.trimStart rest = rest ->
       issued (snd (executeQuery Row server clock query options w))
       = (issued w ++ [(lead ++ kw ++ gap ++ "TOP 1000 " ++ rest)%string])%list.
Proof.
  intros Hm Hv Hp normalizedQuery Ht1 Ht2 Hs.
  split.
  - destruct (matchLeadingSelect_normalized query Hs)
      as (lead & kw & gap & rest & Hq & Hl & Hk & Hg & Hgw & Hr & _).
    now exists lead, kw, gap, rest.
  - intros lead kw gap rest Hq Hl Hk Hg Hgw Hr.
    rewrite executeQuery_sends by assumption.
    assert (He : effectiveMaxRows options = 1000%Z).
    { unfold effectiveMaxRows. destruct Hm as [-> | ->]; reflexivity. }
    rewrite He. unfold addRowLimit. fold normalizedQuery.
    rewrite Ht1, Ht2, Hs. cbn [orb]. rewrite Hq at 1.
    rewrite (matchLeadingSelect_of_shape lead kw gap rest Hl Hk Hg Hgw Hr).
    do 2 f_equal. app_norm. reflexivity.
Qed.

Lemma default_limit_witness :
  issued (snd (executeQuery unit Scenario.okServer Scenario.tick
                 "SELECT col FROM t" (mkOptions (Some 0%Z) None)
                 Scenario.idle))
  = ["SELECT TOP 1000 col FROM t"]
  /\ issued (snd (executeQuery unit Scenario.okServer Scenario.tick
                    "SELECT col FROM t" (mkOptions None None)
                    Scenario.idle))
     = ["SELECT TOP 1000 col FROM t"].
Proof.
  split.
  - destruct (default_limit unit Scenario.okServer Scenario.tick
                "SELECT col FROM t" (mkOptions (Some 0%Z) None) Scenario.idle
                (or_intror eq_refl) eq_refl eq_refl eq_refl eq_refl eq_refl)
      as [_ Hall].
    exact (Hall "" "SELECT" " " "col FROM t" eq_refl eq_refl eq_refl
             ltac:(discriminate) eq_refl eq_refl).
  - destruct (default_limit unit Scenario.okServer Scenario.tick
                "SELECT col FROM t" (mkOptions None None) Scenario.idle
                (or_introl eq_refl) eq_refl eq_refl eq_refl eq_refl eq_refl)
      as [_ Hall].
    exact (Hall "" "SELECT" " " "col FROM t" eq_refl eq_refl eq_refl
             ltac:(discriminate) eq_refl eq_refl).
Defined.

End RowLimitMore.

(** * The success paths of [explainQuery] and [getQueryStatistics] *)

Section ExecutorMore.
Import QueryExecutor.

Variable Row : Type.
Variable server : list string -> string -> Result (QueryReply Row).
Variable clock : nat -> Z.

(** X7.  Whenever [explainQuery] returns a plan, the query was accepted by
    the gatekeeper, exactly three texts were sent, the ON statement, the
    caller's text as it is (no row limit is put in) and the OFF statement,
    the plan is the rows the server gave for the caller's text, and
    [SHOWPLAN_ALL] is off afterwards. *)
Theorem explainQuery_success (query : string) w plan w' :
  explainQuery Row server query w = (Ok plan, w') ->
  validateReadOnlyQuery query = Ok tt
  /\ issued w'
     = (issued w ++ ["SET SHOWPLAN_ALL ON"; query; "SET SHOWPLAN_ALL OFF"])%list
  /\ (exists reply,
        server (issued w ++ ["SET SHOWPLAN_ALL ON"])%list query = Ok reply
        /\ plan = rowsOf Row reply)
  /\ showplan_all (session w') = false.
Proof.
  unfold explainQuery, bind, lift, tryCatch, getPool, requestQuery, throw, ret.
  destruct (validateReadOnlyQuery query) as [[]|]; [|discriminate].
  destruct (pool w); [|discriminate].
  destruct (server (issued w) "SET SHOWPLAN_ALL ON"); [|discriminate].
  cbn [issued session pool clockReads].
  destruct (server (issued w ++ ["SET SHOWPLAN_ALL ON"])%list query) as [reply|] eqn:Hq;
    [|discriminate].
  cbn [issued session pool clockReads].
  destruct (server _ "SET SHOWPLAN_ALL OFF"); [|discriminate].
  intros H. injection H as <- <-. cbn [issued session].
  repeat split.
  - now rewrite <- !List.app_assoc.
  - now exists reply.
Qed.

(** X8.  Whenever [getQueryStatistics] returns, the query was accepted,
    exactly five texts were sent, the two ON statements, the caller's text
    as it is and the two OFF statements, and [STATISTICS IO] and
    [STATISTICS TIME] are off afterwards. *)
Theorem getQueryStatistics_success (query : string) w stats w' :
  getQueryStatistics Row server clock query w = (Ok stats, w') ->
  validateReadOnlyQuery query = Ok tt
  /\ issued w'
     = (issued w ++ ["SET STATISTICS IO ON"; "SET STATISTICS TIME ON"; query;
                     "SET STATISTICS IO OFF"; "SET STATISTICS TIME OFF"])%list
  /\ statistics_io (session w') = false
  /\ statistics_time (session w') = false.
Proof.
  unfold getQueryStatistics, bind, lift, tryCatch, dateNow, getPool,
    requestQuery, throw, ret.
  destruct (validateReadOnlyQuery query) as [[]|]; [|discriminate].
  destruct (pool w); [|discriminate].
  repeat match goal with
         | |- context [match server ?l ?q with _ => _ end] =>
             destruct (server l q); cbn [issued session pool clockReads]
         end;
    intros H; try discriminate H;
    injection H as _ <-; cbn [issued session];
    repeat split; now rewrite <- !List.app_assoc.
Qed.

End ExecutorMore.

Section ExecutorMoreInstances.
Import QueryExecutor.

Lemma explainQuery_success_witness :
  exists plan w',
    explainQuery unit Scenario.okServer "SELECT col FROM t" Scenario.idle
    = (Ok plan, w')
    /\ issued w'
       = ["SET SHOWPLAN_ALL ON"; "SELECT col FROM t"; "SET SHOWPLAN_ALL OFF"]
    /\ showplan_all (session w') = false.
Proof.
  eexists; eexists; split; [reflexivity|].
  destruct (explainQuery_success unit Scenario.okServer "SELECT col FROM t"
              Scenario.idle _ _ eq_refl) as (_ & Hi & _ & Hs).
  split; [exact Hi | exact Hs].
Defined.

Lemma getQueryStatistics_success_witness :
  exists stats w',
    getQueryStatistics unit Scenario.okServer Scenario.tick "SELECT col FROM t"
      Scenario.idle = (Ok stats, w')
    /\ List.length (issued w') = 5
    /\ statistics_io (session w') = false
    /\ statistics_time (session w') = false.
Proof.
  eexists; eexists; split; [reflexivity|].
  destruct (getQueryStatistics_success unit Scenario.okServer Scenario.tick
              "SELECT col FROM t" Scenario.idle _ _ eq_refl)
    as (_ & Hi & Hio & Htime).
  split; [now rewrite Hi | split; [exact Hio | exact Htime]].
Defined.

End ExecutorMoreInstances.

(** * Further properties of the schema discovery *)

Section SchemaMore.
Import SchemaDiscovery.

Variable catalog : Catalog.

Ltac run :=
  unfold getTableSchema, getTableColumns, getTableIndexes, getTableForeignKeys,
    getPool, send, bind, tryCatch, throw, ret;
  cbn [connected sent].

(** X9.  The three facets are integral: for an existing table, the error of
    the first failing one among the column, index and foreign-key statements
    is the error of [getTableSchema], unchanged, whatever the type of the
    table and the fate of the count statement. *)
Theorem facet_failure_propagates (schemaName tableName : string) w row0 others e :
  connected w = true ->
  tableInfoRows catalog schemaName tableName = Ok (row0 :: others) ->
  (columnRows catalog schemaName tableName = Throw e
   \/ (exists cols, columnRows catalog schemaName tableName = Ok cols)
      /\ indexRows catalog schemaName tableName = Throw e
   \/ (exists cols, columnRows catalog schemaName tableName = Ok cols)
      /\ (exists ixs, indexRows catalog schemaName tableName = Ok ixs)
      /\ foreignKeyRows catalog schemaName tableName = Throw e) ->
  fst (getTableSchema catalog schemaName tableName w) = Throw e.
Proof.
  intros Hc Ht H. destruct w as [c sent0]. cbn in Hc. subst c.
  run. rewrite Ht. cbn.
  destruct (row_type row0 =? "USER_TABLE");
    [destruct (rowCountRows catalog schemaName tableName) as [[|n ns]|]|];
    cbn;
    (destruct H as [Hcol | [[[cols Hcol] Hix] | [[cols Hcol] [[ixs Hix] Hfk]]]];
     rewrite Hcol; cbn; [reflexivity | rewrite Hix; cbn; reflexivity |];
     rewrite Hix; cbn; rewrite Hfk; reflexivity).
Qed.

(** X10.  In a returned schema the table descriptor is the first row of the
    existence statement (not the names asked for), and [rowCount] is the
    first row of the count statement when the type is [USER_TABLE] and
    that statement delivered a row; it is unset for every other type, for a
    failed count and for a count without rows. *)
Theorem table_descriptor (schemaName tableName : string) w ts w' :
  getTableSchema catalog schemaName tableName w = (Ok ts, w') ->
  exists row0 others,
    tableInfoRows catalog schemaName tableName = Ok (row0 :: others)
    /\ schema (table ts) = row_schema row0
    /\ name (table ts) = row_name row0
    /\ type (table ts) = row_type row0
    /\ rowCount (table ts)
       = if row_type row0 =? "USER_TABLE"
         then match rowCountRows catalog schemaName tableName with
              | Ok (row_count :: _) => Some row_count
              | _ => None
              end
         else None.
Proof.
  destruct w as [[] sent0]; run; [|discriminate].
  destruct (tableInfoRows catalog schemaName tableName) as [[|row0 others]|];
    try discriminate.
  cbn.
  destruct (row_type row0 =? "USER_TABLE") eqn:Ety;
    [destruct (rowCountRows catalog schemaName tableName) as [[|n ns]|] eqn:Ecnt|];
    cbn;
    (destruct (columnRows catalog schemaName tableName) as [cols|];
       [|discriminate]);
    cbn;
    (destruct (indexRows catalog schemaName tableName) as [ixs|];
       [|discriminate]);
    cbn;
    (destruct (foreignKeyRows catalog schemaName tableName) as [fks|];
       [|discriminate]);
    cbn; intros H; injection H as <- _;
    exists row0, others; rewrite Ety; repeat split.
Qed.

End SchemaMore.

Section SplitJoin.
Import SchemaDiscovery JsFacts.

Lemma splitFrom_nonempty sep k cur s : splitFrom sep k cur s <> [].
Proof.
  revert k cur. induction s as [|c s IH]; intros k cur; cbn [splitFrom];
    [discriminate|].
  destruct k; [|apply IH].
  destruct (Js.startsWith (String c s) sep); [discriminate | apply IH].
Qed.

Lemma concat_cons sep (x : string) (l : list string) :
  l <> [] -> String.concat sep (x :: l) = x ++ sep ++ String.concat sep l.
Proof. destruct l; [contradiction | reflexivity]. Qed.

Lemma splitFrom_join (n : nat) :
  forall s cur, String.length s <= n ->
    String.concat ", " (splitFrom ", " 0 cur s) = cur ++ s.
Proof.
  induction n as [|n IH]; intros s cur Hlen.
  - destruct s; [|cbn in Hlen; lia]. cbn. now rewrite app_nil_r.
  - destruct s as [|c s]; [cbn; now rewrite app_nil_r|].
    cbn [splitFrom].
    destruct (Js.startsWith (String c s) ", ") eqn:E.
    + apply startsWith_spec in E as [r E]. cbn [append] in E.
      injection E as -> ->. cbn [String.length Nat.sub splitFrom].
      rewrite concat_cons by apply splitFrom_nonempty.
      rewrite IH by (cbn in Hlen; lia). reflexivity.
    + rewrite IH by (cbn in Hlen; lia). now rewrite app_assoc.
Qed.

(** X11.  Joining the pieces of [split] with the separator gives the text
    back: the split of an index aggregate loses nothing. *)
Theorem split_join (s : string) : String.concat ", " (split s ", ") = s.
Proof. unfold split. now rewrite (splitFrom_join (String.length s)). Qed.

Lemma splitFrom_name (n rest : string) :
  Js.includes n ", " = false ->
  rest = "" \/ (exists r, rest = String "," r) ->
  forall cur, splitFrom ", " 0 cur (n ++ rest) = splitFrom ", " 0 (cur ++ n) rest.
Proof.
  intros Hn Hrest. induction n as [|c n IH]; intros cur.
  - now rewrite app_nil_r.
  - cbn [Js.includes] in Hn.
    destruct (Js.startsWith (String c n) ", ") eqn:E1; [discriminate|].
    cbn [append splitFrom].
    destruct (Js.startsWith (String c (n ++ rest)) ", ") eqn:E2.
    + exfalso. apply startsWith_spec in E2 as [r E2]. cbn [append] in E2.
      injection E2 as -> E2.
      destruct n as [|x n]; cbn [append] in E2.
      * destruct Hrest as [-> | [r' ->]]; discriminate.
      * injection E2 as -> _.
        assert (Js.startsWith (String "," (String " " n)) ", " = true)
          by (apply startsWith_spec; now exists n).
        congruence.
    + rewrite IH by exact Hn. now rewrite app_assoc.
Qed.

Lemma splitFrom_separator (cur s : string) :
  splitFrom ", " 0 cur (", " ++ s) = cur :: splitFrom ", " 0 "" s.
Proof.
  cbn [append splitFrom].
  assert (E : Js.startsWith (String "," (String " " s)) ", " = true)
    by (apply startsWith_spec; now exists s).
  rewrite E. reflexivity.
Qed.

Lemma split_of_join (names : list string) :
  names <> [] ->
  Forall (fun n => Js.includes n ", " = false) names ->
  split (String.concat ", " names) ", " = names.
Proof.
  unfold split. induction names as [|n names IH]; intros Hne Hall;
    [contradiction|].
  inversion Hall as [|? ? Hn Hrest]; subst.
  destruct names as [|m names].
  - cbn [String.concat]. rewrite <- (app_nil_r n) at 1.
    rewrite splitFrom_name by (auto). reflexivity.
  - rewrite concat_cons by discriminate.
    rewrite splitFrom_name by (cbn; eauto).
    rewrite splitFrom_separator.
    rewrite IH by (discriminate || assumption). reflexivity.
Qed.

(** X12.  An index row whose aggregate is the join of its column names with
    [, ] (at least one name, none with [, ] inside) yields exactly these
    names, in the order of the aggregate. *)
Theorem index_columns_recovered (indexName : string) (names : list string)
    (unique primary : bool) :
  names <> [] ->
  Forall (fun n => Js.includes n ", " = false) names ->
  idx_columns (indexOfRow (mkIndexRow indexName (String.concat ", " names)
                                      unique primary))
  = names.
Proof. intros Hne Hall. cbn. now apply split_of_join. Qed.

Lemma index_columns_recovered_witness :
  idx_columns (indexOfRow (mkIndexRow "IX_orders"
                             (String.concat ", " ["customer_id"; "created,at"; "id"])
                             false false))
  = ["customer_id"; "created,at"; "id"].
Proof.
  apply index_columns_recovered; [discriminate | repeat constructor].
Defined.

End SplitJoin.

Section SchemaMoreInstances.
Import SchemaDiscovery.

Lemma facet_failure_propagates_witness :
  fst (getTableSchema Fixtures.brokenIndexCatalog "dbo" "orders" Scenario.fresh)
  = Throw (JsError "Invalid object name 'sys.indexes'").
Proof.
  apply (facet_failure_propagates Fixtures.brokenIndexCatalog "dbo" "orders"
           Scenario.fresh (mkTableRow "dbo" "orders" "USER_TABLE") []);
    [reflexivity | reflexivity |].
  right. left. split; [eexists; reflexivity | reflexivity].
Defined.

Lemma table_descriptor_witness :
  exists ts w',
    getTableSchema Scenario.ghostCatalog "DBO" "ORDERS" Scenario.fresh
    = (Ok ts, w')
    /\ exists row0 others,
         tableInfoRows Scenario.ghostCatalog "DBO" "ORDERS" = Ok (row0 :: others)
         /\ schema (table ts) = row_schema row0
         /\ name (table ts) = row_name row0
         /\ type (table ts) = row_type row0
         /\ rowCount (table ts)
            = if row_type row0 =? "USER_TABLE"
              then match rowCountRows Scenario.ghostCatalog "DBO" "ORDERS" with
                   | Ok (row_count :: _) => Some row_count
                   | _ => None
                   end
              else None.
Proof.
  eexists; eexists; split; [lazy; reflexivity|].
  eapply (table_descriptor Scenario.ghostCatalog "DBO" "ORDERS" Scenario.fresh).
  lazy; reflexivity.
Defined.

End SchemaMoreInstances.

(** * The table inventory and the search *)

Section Search.
Import SchemaDiscovery Inventory JsFacts.

Variable tableRows : Result (list TableRow).

Lemma includes_empty (s : string) : Js.includes s "" = true.
Proof. destruct s; reflexivity. Qed.

Lemma filter_all {A} (p : A -> bool) (l : list A) :
  (forall x, p x = true) -> List.filter p l = l.
Proof.
  intros H. induction l as [|x l IH]; cbn; [reflexivity|].
  now rewrite H, IH.
Qed.

(** X13.  The empty search term keeps every table: [search_tables] with
    [""] gives what [getTables] gives, in the same order, after the same
    one statement. *)
Theorem search_empty_term (w : Link) :
  searchTables tableRows "" w = getTables tableRows w.
Proof.
  unfold searchTables, bind, ret.
  destruct (getTables tableRows w) as [[tables|e] w']; [|reflexivity].
  rewrite filter_all; [reflexivity|].
  intros table. unfold matchesSearch. cbn [Js.toLowerCase Js.map].
  now rewrite includes_empty.
Qed.

Lemma includes_lowercase (text term : string) :
  Js.includes (Js.toLowerCase text) (Js.toLowerCase term) = true
  <-> QueryExecutor.containsIgnoringCase text (Js.toLowerCase term).
Proof.
  rewrite includes_spec. unfold QueryExecutor.containsIgnoringCase. split.
  - intros (a & b & H).
    apply map_app_inv in H as (s1 & s23 & -> & _ & H).
    apply map_app_inv in H as (s2 & s3 & -> & H2 & _).
    now exists s1, s2, s3.
  - intros (pre & mid & post & -> & H).
    exists (Js.toLowerCase pre), (Js.toLowerCase post).
    unfold Js.toLowerCase in *. now rewrite !map_app, H.
Qed.

(** X14.  What [search_tables] keeps: a table of [getTables] is in the result
    exactly when the term occurs in its name or in its schema name, the case
    of letters ignored on both sides; a failure of [getTables] is the
    failure of the search. *)
Theorem search_membership (searchTerm : string) (w : Link) :
  match fst (getTables tableRows w) with
  | Ok tables =>
      exists found,
        fst (searchTables tableRows searchTerm w) = Ok found
        /\ forall table,
             In table found
             <-> In table tables
                 /\ (QueryExecutor.containsIgnoringCase
                       (name table) (Js.toLowerCase searchTerm)
                     \/ QueryExecutor.containsIgnoringCase
                          (schema table) (Js.toLowerCase searchTerm))
  | Throw e => fst (searchTables tableRows searchTerm w) = Throw e
  end.
Proof.
  unfold searchTables, bind, ret.
  destruct (getTables tableRows w) as [[tables|e] w']; cbn [fst];
    [|reflexivity].
  eexists. split; [reflexivity|].
  intros table. rewrite filter_In. unfold matchesSearch.
  rewrite orb_true_iff, !includes_lowercase. reflexivity.
Qed.

(** The search ignores the case of letters of the term. *)
Lemma search_ignores_case (t1 t2 : string) (w : Link) :
  Js.toLowerCase t1 = Js.toLowerCase t2 ->
  searchTables tableRows t1 w = searchTables tableRows t2 w.
Proof.
  intros H. unfold searchTables, matchesSearch. now rewrite H.
Qed.

(** X15.  [getTables] without a pool throws before any statement is sent;
    with a pool it sends its one statement, and it never fills [rowCount]:
    the row counts are left to [getTableSchema]. *)
Theorem getTables_outcome (w : Link) :
  (linked w = false ->
   getTables tableRows w
   = (Throw (JsError "Database not connected. Call connect() first."), w))
  /\ (linked w = true ->
      listings (snd (getTables tableRows w)) = S (listings w)
      /\ forall tables, fst (getTables tableRows w) = Ok tables ->
           (exists rows, tableRows = Ok rows
                         /\ List.map name tables = List.map row_name rows
                         /\ List.map schema tables = List.map row_schema rows
                         /\ List.map type tables = List.map row_type rows)
           /\ Forall (fun table => rowCount table = None) tables).
Proof.
  unfold getTables, Inventory.getPool, bind, ret. split; intros Hl; rewrite Hl.
  - reflexivity.
  - destruct tableRows as [rows|e]; cbn; (split; [reflexivity|]).
    + intros tables H. injection H as <-. split.
      * exists rows. rewrite !List.map_map. cbn. repeat split.
      * apply Forall_forall. intros table Hin.
        apply in_map_iff in Hin as (row & <- & _). reflexivity.
    + discriminate.
Qed.

End Search.

Section SearchInstances.
Import SchemaDiscovery Inventory.

Lemma search_ignores_case_witness :
  searchTables Fixtures.listing "ORDERS" Fixtures.linkUp
  = searchTables Fixtures.listing "orders" Fixtures.linkUp
  /\ List.map name (match fst (searchTables Fixtures.listing "ORDERS" Fixtures.linkUp) with
                    | Ok tables => tables
                    | Throw _ => []
                    end) = ["Orders"; "RecentOrders"].
Proof.
  split; [apply search_ignores_case; reflexivity | reflexivity].
Defined.

Lemma getTables_outcome_witness :
  listings (snd (getTables Fixtures.listing Fixtures.linkUp)) = 1
  /\ exists tables,
       fst (getTables Fixtures.listing Fixtures.linkUp) = Ok tables
       /\ Forall (fun table => rowCount table = None) tables.
Proof.
  destruct (getTables_outcome Fixtures.listing Fixtures.linkUp) as [_ H].
  destruct (H eq_refl) as [Hn Ht]. split; [exact Hn|].
  eexists. split; [reflexivity|]. apply Ht. reflexivity.
Defined.

End SearchInstances.

(** * Resource URIs *)

Section ResourceUris.
Import SchemaDiscovery Resources JsFacts.

Lemma takeWhile_stop p (a : string) (c : ascii) (b : string) :
  Js.forallb p a = true -> p c = false ->
  Js.takeWhile p (a ++ String c b) = a
  /\ Js.dropWhile p (a ++ String c b) = String c b.
Proof.
  intros Ha Hc. induction a as [|x a IH]; cbn [append Js.takeWhile Js.dropWhile].
  - now rewrite Hc.
  - cbn [Js.forallb] in Ha. apply andb_prop in Ha as [Hx Ha].
    rewrite Hx. destruct (IH Ha) as [-> ->]. now split.
Qed.

Lemma dropWhile_head p (s : string) (c : ascii) (t : string) :
  Js.dropWhile p s = String c t -> p c = false.
Proof.
  induction s as [|x s IH]; cbn [Js.dropWhile]; [discriminate|].
  destruct (p x) eqn:E; [exact IH|]. intros H. injection H as <- _. exact E.
Qed.

Lemma notSlash_false (c : ascii) : notSlash c = false -> c = "/"%char.
Proof.
  unfold notSlash. intros H. apply negb_false_iff in H.
  now apply Ascii.eqb_eq in H.
Qed.

Lemma matchResourceUri_elim (uri s t : string) :
  matchResourceUri uri = Some (s, t) ->
  uri = "mssql://schema/" ++ s ++ "/" ++ t
  /\ s <> "" /\ Js.forallb notSlash s = true
  /\ t <> ""
  /\ Js.forallb (fun c => negb (Js.isLineTerminator c)) t = true.
Proof.
  unfold matchResourceUri.
  destruct (Js.startsWith uri "mssql://schema/") eqn:E; [|discriminate].
  apply startsWith_spec in E as [behind ->].
  change (Js.drop 15 ("mssql://schema/" ++ behind)) with behind.
  pose proof (takeWhile_dropWhile notSlash behind) as Hb.
  pose proof (forallb_takeWhile notSlash behind) as Hs.
  destruct (Js.dropWhile notSlash behind) as [|c group2] eqn:Ed;
    [discriminate|].
  apply dropWhile_head, notSlash_false in Ed. subst c.
  destruct (eqb_spec (Js.takeWhile notSlash behind) "") as [|Hne1];
    [discriminate|].
  destruct (eqb_spec group2 "") as [|Hne2]; [discriminate|].
  cbn [negb andb].
  destruct (Js.forallb _ group2) eqn:Hlt; [|discriminate].
  intros H. injection H as <- <-.
  repeat split; try assumption. now rewrite Hb at 1.
Qed.

Lemma matchResourceUri_intro (s t : string) :
  s <> "" -> Js.forallb notSlash s = true -> t <> "" ->
  Js.forallb (fun c => negb (Js.isLineTerminator c)) t = true ->
  matchResourceUri ("mssql://schema/" ++ s ++ "/" ++ t) = Some (s, t).
Proof.
  intros Hs1 Hs2 Ht1 Ht2. unfold matchResourceUri.
  assert (E : Js.startsWith ("mssql://schema/" ++ s ++ "/" ++ t) "mssql://schema/" = true)
    by (apply startsWith_spec; eauto).
  rewrite E.
  change (Js.drop 15 ("mssql://schema/" ++ s ++ "/" ++ t)) with (s ++ String "/" t).
  destruct (takeWhile_stop notSlash s "/" t Hs2 eq_refl) as [-> ->].
  apply eqb_neq in Hs1, Ht1. now rewrite Hs1, Ht1, Ht2.
Qed.

(** X16.  Which URIs the read-resource handler takes apart, and how: the
    regular expression matches exactly the texts
    [mssql://schema/<schema>/<table>] with a non-empty schema name without
    [/] and a non-empty table name without line terminators; the schema
    name ends at the first [/], every later [/] belongs to the table
    name. *)
Theorem matchResourceUri_iff (uri s t : string) :
  matchResourceUri uri = Some (s, t)
  <-> (uri = "mssql://schema/" ++ s ++ "/" ++ t
       /\ s <> "" /\ Js.forallb notSlash s = true
       /\ t <> ""
       /\ Js.forallb (fun c => negb (Js.isLineTerminator c)) t = true).
Proof.
  split.
  - apply matchResourceUri_elim.
  - intros (-> & Hs1 & Hs2 & Ht1 & Ht2). now apply matchResourceUri_intro.
Qed.

(** X17.  A listed resource can be read back: for a table whose schema name
    is non-empty and has no [/], and whose name is non-empty and has no
    line terminator, the URI of the list-resources handler is taken apart
    by the read-resource handler into that schema name and that name. *)
Theorem resource_uri_round_trip (table : TableInfo) :
  schema table <> "" -> Js.forallb notSlash (schema table) = true ->
  name table <> "" ->
  Js.forallb (fun c => negb (Js.isLineTerminator c)) (name table) = true ->
  matchResourceUri (resourceUri table) = Some (schema table, name table).
Proof.
  intros H1 H2 H3 H4. unfold resourceUri. now apply matchResourceUri_intro.
Qed.

Lemma resource_uri_round_trip_witness :
  matchResourceUri (resourceUri (mkTableInfo "dbo" "order/lines" "USER_TABLE" None))
  = Some ("dbo", "order/lines").
Proof.
  apply (resource_uri_round_trip (mkTableInfo "dbo" "order/lines" "USER_TABLE" None));
    first [discriminate | reflexivity].
Defined.

(** A schema name with [/] in it does not come back. *)
Example resource_uri_slash_in_schema :
  matchResourceUri (resourceUri (mkTableInfo "a/b" "t" "USER_TABLE" None))
  = Some ("a", "b/t").
Proof. reflexivity. Qed.

End ResourceUris.

(** * The connection *)

Section Connection.
Import DatabaseConnection.

Variable attempt : nat -> Attempt.
Variable closing : nat -> Result unit.

(** X18.  A rejected connection attempt is never repeated: [connect] throws
    and leaves the unconnected pool in the field, and from then on [connect]
    and [ensureConnected] return at once without a new attempt, while
    [isConnected] stays false and [getPool] hands the unconnected pool
    out. *)
Theorem rejected_connect_sticks (w : Db) (e : Thrown) :
  db_pool w = None -> attempt (attempts w) = ConnectRejects e ->
  let w1 := snd (connect attempt w) in
  fst (connect attempt w)
  = Throw (JsError ("Database connection failed: " ++ messageOf e))
  /\ isConnected w1 = false
  /\ connect attempt w1 = (Ok tt, w1)
  /\ ensureConnected attempt w1 = (Ok tt, w1)
  /\ getPool w1 = (Ok tt, w1).
Proof.
  intros Hp Ha. unfold ensureConnected, isConnected, connect, getPool.
  rewrite Hp, Ha. cbn. repeat split.
Qed.

(** X19.  [disconnect] whose [close] resolves empties the field: after it
    [getPool] throws, a second [disconnect] does nothing, and
    [ensureConnected] makes a new attempt, which connects when the driver
    does. *)
Theorem disconnect_resets (w : Db) :
  db_pool w = None \/ closing (closings w) = Ok tt ->
  let w1 := snd (disconnect closing w) in
  fst (disconnect closing w) = Ok tt
  /\ db_pool w1 = None
  /\ attempts w1 = attempts w
  /\ getPool w1
     = (Throw (JsError "Database not connected. Call connect() first."), w1)
  /\ disconnect closing w1 = (Ok tt, w1)
  /\ (attempt (attempts w) = Connects ->
      ensureConnected attempt w1
      = (Ok tt, mkDb (Some true) (S (attempts w)) (closings w1))).
Proof.
  intros H. unfold ensureConnected, isConnected, connect, disconnect, getPool.
  destruct (db_pool w) as [c|] eqn:Hp.
  - destruct H as [H|H]; [discriminate|]. rewrite H. cbn.
    repeat split. intros Ha. now rewrite Ha.
  - cbn. rewrite Hp. cbn. repeat split. intros Ha. now rewrite Ha.
Qed.

End Connection.

Section ConnectionInstances.
Import DatabaseConnection.

Lemma rejected_connect_sticks_witness :
  let w1 := snd (connect Drivers.flaky Drivers.unset) in
  Drivers.flaky 1 = Connects
  /\ isConnected w1 = false
  /\ ensureConnected Drivers.flaky w1 = (Ok tt, w1)
  /\ attempts (snd (ensureConnected Drivers.flaky w1)) = 1.
Proof.
  destruct (rejected_connect_sticks Drivers.flaky Drivers.unset
              (JsError "Failed to connect to db:1433 - ECONNREFUSED")
              eq_refl eq_refl) as (_ & Hc & _ & He & _).
  cbv zeta. split; [reflexivity|]. split; [exact Hc|]. split; [exact He|].
  now rewrite He.
Defined.

Lemma disconnect_resets_witness :
  let w0 := snd (connect Drivers.flaky Drivers.unset) in
  let w1 := snd (disconnect Drivers.closes w0) in
  db_pool w1 = None
  /\ isConnected (snd (ensureConnected Drivers.flaky w1)) = true.
Proof.
  cbv zeta.
  destruct (disconnect_resets Drivers.flaky Drivers.closes
              (snd (connect Drivers.flaky Drivers.unset)) (or_intror eq_refl))
    as (_ & Hp & _ & _ & _ & He).
  split; [exact Hp|]. now rewrite (He eq_refl).
Defined.

End ConnectionInstances.
